(** * maxlikespy: the two tutorial models, [Time] and [CatSetTime]

    A shallow embedding of the two model classes of
    [docs/model_creation_tutorial.ipynb] and of the fragment of numpy they
    use.  Floating-point numbers are idealised as real numbers: [np.exp] is
    [exp], [np.log] is [ln] (total on [R]), and division is [Rdiv].  Arrays
    carry their shape and an index function, and binary operators follow
    numpy's broadcasting rule, including its failure ([ValueError]) on
    shapes that cannot be broadcast together.  Where the floating-point
    result differs in kind from the real one (a zero width, for which the
    code divides by zero; a prediction that rounds to 0 or 1), a statement
    either excludes the case by a hypothesis or does not speak of it. *)

From Stdlib Require Import String List ZArith Arith Lia.
From Stdlib Require Import Reals Lra.
Import ListNotations.

Open Scope string_scope.
Open Scope list_scope.
Open Scope nat_scope.

(** ** Python exceptions and results *)

Inductive pyerr : Type :=
| ValueError
| IndexError
| KeyError
| TypeError
| NameError.

Inductive result (A : Type) : Type :=
| Ok (a : A)
| Err (e : pyerr).

Arguments Ok {A} a.
Arguments Err {A} e.

Definition rbind {A B : Type} (m : result A) (k : A -> result B) : result B :=
  match m with
  | Ok a => k a
  | Err e => Err e
  end.

Notation "x <- m ;; k" := (rbind m (fun x => k))
  (at level 61, m at next level, right associativity).

Definition is_ok {A : Type} (m : result A) : bool :=
  match m with Ok _ => true | Err _ => false end.

(** A method of a class with instance state [S]: it receives [self] and
    gives back [self] as the call leaves it, together with the value
    returned or the exception raised. *)
Definition method (S A : Type) : Type := S -> S * result A.

(** ** numpy arrays *)

(** An array is its shape (outermost axis first, as [a.shape]) and the
    element at each multi-index.  A scalar has the empty shape. *)
Record ndarray : Type := mkarray {
  shape : list nat;
  item : list nat -> R
}.

Definition scalar (r : R) : ndarray := mkarray [] (fun _ => r).

(** [np.array([x0, ..., xn])] *)
Definition array1 (l : list R) : ndarray :=
  mkarray [length l]
          (fun ix => match ix with
                     | [i] => nth i l 0%R
                     | _ => 0%R
                     end).

(** [np.array([[...], ..., [...]])] with [cols] entries per row. *)
Definition array2 (cols : nat) (rows : list (list R)) : ndarray :=
  mkarray [length rows; cols]
          (fun ix => match ix with
                     | [i; j] => nth j (nth i rows []) 0%R
                     | _ => 0%R
                     end).

(** [ix] is a valid multi-index of an array of shape [s]. *)
Definition in_bounds (s ix : list nat) : Prop := Forall2 lt ix s.

(** *** Broadcasting

    Shapes are aligned on their last axes; two aligned dimensions are
    compatible when they are equal or one of them is 1. *)

Definition bdim (d1 d2 : nat) : option nat :=
  if d1 =? d2 then Some d1
  else if d1 =? 1 then Some d2
  else if d2 =? 1 then Some d1
  else None.

(** On shapes written innermost axis first. *)
Fixpoint bshape_rev (s1 s2 : list nat) : option (list nat) :=
  match s1, s2 with
  | [], s => Some s
  | s, [] => Some s
  | d1 :: r1, d2 :: r2 =>
      match bdim d1 d2, bshape_rev r1 r2 with
      | Some d, Some r => Some (d :: r)
      | _, _ => None
      end
  end.

Definition broadcast_shapes (s1 s2 : list nat) : option (list nat) :=
  option_map (@rev nat) (bshape_rev (rev s1) (rev s2)).

(** The index at which an operand of shape [s] is read for the result
    index [ix]: the trailing axes of [ix], with 0 along every axis where the
    operand has length 1.  (Innermost axis first.) *)
Fixpoint bindex_rev (s ix : list nat) : list nat :=
  match s, ix with
  | d :: s', i :: ix' => (if d =? 1 then 0 else i) :: bindex_rev s' ix'
  | _, _ => []
  end.

Definition bindex (s ix : list nat) : list nat :=
  rev (bindex_rev (rev s) (rev ix)).

(** The element of [a] that takes part in the result element [ix]. *)
Definition bitem (a : ndarray) (ix : list nat) : R :=
  item a (bindex (shape a) ix).

(** A binary ufunc: [np.add], [np.subtract], [np.multiply], [np.divide]. *)
Definition ufunc2 (f : R -> R -> R) (a b : ndarray) : result ndarray :=
  match broadcast_shapes (shape a) (shape b) with
  | Some s => Ok (mkarray s (fun ix => f (bitem a ix) (bitem b ix)))
  | None => Err ValueError
  end.

(** A unary ufunc: [np.negative], [np.exp], [np.log]. *)
Definition ufunc1 (f : R -> R) (a : ndarray) : ndarray :=
  mkarray (shape a) (fun ix => f (item a ix)).

Definition np_add := ufunc2 Rplus.
Definition np_subtract := ufunc2 Rminus.
Definition np_multiply := ufunc2 Rmult.
Definition np_divide := ufunc2 Rdiv.
Definition np_negative := ufunc1 Ropp.
Definition np_exp := ufunc1 exp.
Definition np_log := ufunc1 ln.

(** [np.power(a, n.)] for a float literal [n.] with a natural value, the
    only way the models call it ([np.power(..., 2.)]). *)
Definition np_power (a : ndarray) (n : nat) : ndarray :=
  ufunc1 (fun v => (v ^ n)%R) a.

(** *** Reductions *)

Fixpoint sum_n (n : nat) (f : nat -> R) : R :=
  match n with
  | O => 0%R
  | S k => (sum_n k f + f k)%R
  end.

(** The sum of [f] over every multi-index of shape [s]. *)
Fixpoint sum_over (s : list nat) (f : list nat -> R) : R :=
  match s with
  | [] => f []
  | n :: s' => sum_n n (fun i => sum_over s' (fun ix => f (i :: ix)))
  end.

(** [np.sum(a)] *)
Definition np_sum (a : ndarray) : R := sum_over (shape a) (item a).

(** The number of elements, [a.size]. *)
Definition size (s : list nat) : nat := fold_right Nat.mul 1 s.

(** *** Tiling: [np.tile(a, reps)]

    Shape and repetition counts are aligned on their last axes, the shorter
    one padded with 1; the element at [ix] is the element of [a] at [ix]
    taken modulo the shape of [a]. *)

Fixpoint tile_shape_rev (s reps : list nat) : list nat :=
  match s, reps with
  | [], _ => reps
  | _, [] => s
  | d :: s', r :: reps' => (r * d) :: tile_shape_rev s' reps'
  end.

Fixpoint tile_index_rev (s ix : list nat) : list nat :=
  match s, ix with
  | d :: s', i :: ix' => (i mod d) :: tile_index_rev s' ix'
  | _, _ => []
  end.

Definition np_tile (a : ndarray) (reps : list nat) : ndarray :=
  mkarray (rev (tile_shape_rev (rev (shape a)) (rev reps)))
          (fun ix => item a (rev (tile_index_rev (rev (shape a)) (rev ix)))).

(** *** Indexing with an integer: [a[k]] *)

Definition np_getitem (a : ndarray) (k : nat) : result ndarray :=
  match shape a with
  | [] => Err IndexError
  | n :: s' =>
      if k <? n then Ok (mkarray s' (fun ix => item a (k :: ix)))
      else Err IndexError
  end.

(** ** Python values held in the [data] dict

    [PyInt] is a Python or numpy integer, [PyArray] an array of floats. *)

Inductive pyval : Type :=
| PyInt (z : Z)
| PyArray (a : ndarray)
| PyDict (d : list (Z * ndarray)).

(** A dict with string keys, as the [data] argument of the constructors. *)
Definition pydict : Type := list (string * pyval).

Fixpoint dict_get {V : Type} (d : list (string * V)) (k : string) : option V :=
  match d with
  | [] => None
  | (k', v) :: d' => if String.eqb k k' then Some v else dict_get d' k
  end.

Fixpoint zdict_get {V : Type} (d : list (Z * V)) (k : Z) : option V :=
  match d with
  | [] => None
  | (k', v) :: d' => if Z.eqb k k' then Some v else zdict_get d' k
  end.

(** [data[k]] *)
Definition data_getitem (data : pydict) (k : string) : result pyval :=
  match dict_get data k with
  | Some v => Ok v
  | None => Err KeyError
  end.

(** [v[k]] for a non-negative integer literal [k], on whatever [v] is. *)
Definition py_getitem (v : pyval) (k : nat) : result ndarray :=
  match v with
  | PyDict d =>
      match zdict_get d (Z.of_nat k) with
      | Some a => Ok a
      | None => Err KeyError
      end
  | PyArray a => np_getitem a k
  | PyInt _ => Err TypeError
  end.

(** [x[k]] on the parameter vector. *)
Definition vec_getitem (x : list R) (k : nat) : result R :=
  match nth_error x k with
  | Some v => Ok v
  | None => Err IndexError
  end.

(** The local variables of a method body, in the order they are bound. *)
Definition locals : Type := list (string * R).

(** Reading a local variable. *)
Definition var (env : locals) (name : string) : result R :=
  match dict_get env name with
  | Some v => Ok v
  | None => Err NameError
  end.

(** ** Sequencing of method bodies *)

Definition mret {S A : Type} (a : A) : method S A := fun self => (self, Ok a).

(** An expression that does not touch [self]. *)
Definition mlift {S A : Type} (r : result A) : method S A := fun self => (self, r).

Definition mbind {S A B : Type} (m : method S A) (k : A -> method S B) : method S B :=
  fun self =>
    match m self with
    | (self', Ok a) => k a self'
    | (self', Err e) => (self', Err e)
    end.

Notation "x <~ m ;; k" := (mbind m (fun x => k))
  (at level 61, m at next level, right associativity).

(** ** Expressions the two classes share *)

(** [np.exp(-np.power(t - ut, 2.) / (2 * np.power(st, 2.)))], which
    [Time.model] evaluates once and [CatSetTime.model] twice. *)
Definition gauss (t : ndarray) (ut st : R) : result ndarray :=
  d <- np_subtract t (scalar ut) ;;
  den <- np_multiply (scalar 2) (np_power (scalar st) 2) ;;
  q <- np_divide (np_negative (np_power d 2)) den ;;
  Ok (np_exp q).

(** [np.sum(spikes * (-np.log(fun)) + (1 - spikes) * (-np.log(1 - (fun))))],
    the body of both [objective] methods after [fun = self.model(x)]. *)
Definition log_loss (spikes f : ndarray) : result R :=
  l <- np_multiply spikes (np_negative (np_log f)) ;;
  ns <- np_subtract (scalar 1) spikes ;;
  nf <- np_subtract (scalar 1) f ;;
  r <- np_multiply ns (np_negative (np_log nf)) ;;
  s <- np_add l r ;;
  Ok (np_sum s).

(** ** The base class

    [Model.__init__] is not part of the tutorial.  The two subclasses read
    the attributes [t] and [spikes] it leaves on the instance; the
    constructors below take it as a parameter [Model_init]. *)
Module Model.

Record instance : Type := mk {
  t : ndarray;
  spikes : ndarray
}.

End Model.

(** ** class Time(Model) *)
Module Time.

Record instance : Type := mk {
  t : ndarray;
  spikes : ndarray;
  param_names : list string;
  function : option ndarray
}.

Definition set_function (self : instance) (f : ndarray) : instance :=
  mk (t self) (spikes self) (param_names self) (Some f).

Section Init.
Variable Model_init : pydict -> result Model.instance.

(** [__init__]: the attribute [function] does not exist yet. *)
Definition init (data : pydict) : result instance :=
  base <- Model_init data ;;
  Ok (mk (Model.t base) (Model.spikes base) ["a_1"; "ut"; "st"; "a_0"] None).
End Init.

(** [a_1, ut, st, a_0 = x] *)
Definition unpack (x : list R) : result locals :=
  match x with
  | [x0; x1; x2; x3] => Ok [("a_1", x0); ("ut", x1); ("st", x2); ("a_0", x3)]
  | _ => Err ValueError
  end.

(** The right-hand side of the assignment to [self.function]. *)
Definition model_expr (t : ndarray) (env : locals) : result ndarray :=
  a_1 <- var env "a_1" ;;
  ut <- var env "ut" ;;
  st <- var env "st" ;;
  g <- gauss t ut st ;;
  m <- np_multiply (scalar a_1) g ;;
  a_0 <- var env "a_0" ;;
  np_add m (scalar a_0).

Definition model (x : list R) : method instance ndarray :=
  fun self =>
    match (env <- unpack x ;; model_expr (t self) env) with
    | Ok f => (set_function self f, Ok f)
    | Err e => (self, Err e)
    end.

Definition objective (x : list R) : method instance R :=
  fun_ <~ model x ;;
  fun self => (self, log_loss (spikes self) fun_).

End Time.

(** ** class CatSetTime(Model) *)
Module CatSetTime.

Record instance : Type := mk {
  t : ndarray;
  spikes : ndarray;
  plot_t : ndarray;
  conditions : pyval;
  param_names : list string
}.

(** [data["num_trials"]] as the first entry of the [reps] tuple of
    [np.tile]: a non-negative integer.  [np.tile] converts the count to a C
    long first; that conversion, which fails outside [-2^63, 2^63), is not
    modelled, and the properties of the constructor keep the count in that
    range. *)
Definition as_reps (v : pyval) : result nat :=
  match v with
  | PyInt z => if (z <? 0)%Z then Err ValueError else Ok (Z.to_nat z)
  | _ => Err TypeError
  end.

Section Init.
Variable Model_init : pydict -> result Model.instance.

(** [__init__] *)
Definition init (data : pydict) : result instance :=
  base <- Model_init data ;;
  num_trials <- data_getitem data "num_trials" ;;
  n <- as_reps num_trials ;;
  conds <- data_getitem data "conditions" ;;
  Ok (mk (np_tile (Model.t base) [n; 1])
         (Model.spikes base)
         (Model.t base)
         conds
         ["ut"; "st"; "a_0"; "a_1"; "a_2"]).
End Init.

(** [ut, st, a_0 = x[0], x[1], x[2]] and [a_1, a_2 = x[3], x[4]] *)
Definition unpack (x : list R) : result locals :=
  x0 <- vec_getitem x 0 ;;
  x1 <- vec_getitem x 1 ;;
  x2 <- vec_getitem x 2 ;;
  x3 <- vec_getitem x 3 ;;
  x4 <- vec_getitem x 4 ;;
  Ok [("ut", x0); ("st", x1); ("a_0", x2); ("a_1", x3); ("a_2", x4)].

(** The returned expression, with [c1] and [c2] already read. *)
Definition model_expr (t c1 c2 : ndarray) (env : locals) : result ndarray :=
  a_1 <- var env "a_1" ;;
  m1 <- np_multiply (scalar a_1) c1 ;;
  ut <- var env "ut" ;;
  st <- var env "st" ;;
  g1 <- gauss t ut st ;;
  l <- np_multiply m1 g1 ;;
  a_2 <- var env "a_2" ;;
  m2 <- np_multiply (scalar a_2) c2 ;;
  g2 <- gauss t ut st ;;
  r <- np_multiply m2 g2 ;;
  s <- np_add l r ;;
  a_0 <- var env "a_0" ;;
  np_add s (scalar a_0).

Definition model (x : list R) : method instance ndarray :=
  fun self =>
    (self,
     env <- unpack x ;;
     c1 <- py_getitem (conditions self) 1 ;;
     c2 <- py_getitem (conditions self) 2 ;;
     model_expr (t self) c1 c2 env).

Definition objective (x : list R) : method instance R :=
  fun_ <~ model x ;;
  fun self => (self, log_loss (spikes self) fun_).

End CatSetTime.

(** ** What the specification says, as definitions of its own *)

(** The canonical cost of the specification,
    [sum_i [ -o_i*log(p_i) - (1-o_i)*log(1-p_i) ]], over the index set of
    shape [sh]. *)
Definition bernoulli_nll (sh : list nat) (o p : list nat -> R) : R :=
  sum_over sh (fun i => (- o i * ln (p i) - (1 - o i) * ln (1 - p i))%R).

(** The same cost for an observation array and a prediction array: the two
    are aligned index for index, by broadcasting when their shapes differ,
    and there is no cost when they cannot be aligned. *)
Definition bernoulli_cost (o p : ndarray) : result R :=
  match broadcast_shapes (shape o) (shape p) with
  | Some sh => Ok (bernoulli_nll sh (bitem o) (bitem p))
  | None => Err ValueError
  end.

(** The prediction of the category model as the specification writes it,
    [(a_1*c1 + a_2*c2) * exp(-(t-ut)^2 / (2*st^2)) + a_0], at one sample. *)
Definition cat_prediction (a_1 a_2 a_0 ut st c1 c2 t : R) : R :=
  ((a_1 * c1 + a_2 * c2) * exp (- (t - ut) ^ 2 / (2 * st ^ 2)) + a_0)%R.

(** ** Calls made on an instance by a solver *)

Inductive call : Type :=
| CallModel (x : list R)
| CallObjective (x : list R).

Module TimeCalls.

Definition step (c : call) (self : Time.instance) : Time.instance :=
  match c with
  | CallModel x => fst (Time.model x self)
  | CallObjective x => fst (Time.objective x self)
  end.

(** The instance after a sequence of calls, first call first. *)
Definition run (h : list call) (self : Time.instance) : Time.instance :=
  fold_left (fun s c => step c s) h self.

End TimeCalls.

Module CatSetTimeCalls.

Definition step (c : call) (self : CatSetTime.instance) : CatSetTime.instance :=
  match c with
  | CallModel x => fst (CatSetTime.model x self)
  | CallObjective x => fst (CatSetTime.objective x self)
  end.

Definition run (h : list call) (self : CatSetTime.instance) : CatSetTime.instance :=
  fold_left (fun s c => step c s) h self.

End CatSetTimeCalls.

(** The shape of the [CatSetTime] prediction: each indicator is broadcast
    against the time array, then the two products against each other. *)
Definition cat_shape (c1 t c2 : list nat) : option (list nat) :=
  match broadcast_shapes c1 t, broadcast_shapes c2 t with
  | Some s1, Some s2 => broadcast_shapes s1 s2
  | _, _ => None
  end.

(** The local variables of [CatSetTime.model] after its two unpacking
    statements. *)
Definition cat_env (ut st a_0 a_1 a_2 : R) : locals :=
  [("ut", ut); ("st", st); ("a_0", a_0); ("a_1", a_1); ("a_2", a_2)].

(** ** Sample data *)
Module Examples.

Open Scope R_scope.

Definition as_array (v : pyval) : result ndarray :=
  match v with
  | PyArray a => Ok a
  | _ => Err TypeError
  end.

(** A stand-in for the base constructor, used for the sample instances
    only: it takes the time window and the spikes from the entries ["t"] and
    ["spikes"] of [data]. *)
Definition Model_init (data : pydict) : result Model.instance :=
  tv <- data_getitem data "t" ;;
  t <- as_array tv ;;
  sv <- data_getitem data "spikes" ;;
  spikes <- as_array sv ;;
  Ok (Model.mk t spikes).

(** Two trials over three time bins; trial 0 is of condition 1 and trial 1
    of condition 2. *)
Definition window : ndarray := array1 [-1; 0; 1].
Definition raster : ndarray := array2 3 [[0; 1; 0]; [0; 0; 1]].
Definition cond1 : ndarray := array2 1 [[1]; [0]].
Definition cond2 : ndarray := array2 1 [[0]; [1]].

Definition data : pydict :=
  [("t", PyArray window); ("spikes", PyArray raster);
   ("num_trials", PyInt 2);
   ("conditions", PyDict [(1%Z, cond1); (2%Z, cond2)])].

(** The same data with the two indicators exchanged. *)
Definition data_swapped : pydict :=
  [("t", PyArray window); ("spikes", PyArray raster);
   ("num_trials", PyInt 2);
   ("conditions", PyDict [(1%Z, cond2); (2%Z, cond1)])].

Definition time : Time.instance :=
  Time.mk window raster ["a_1"; "ut"; "st"; "a_0"] None.

Definition cat : CatSetTime.instance :=
  CatSetTime.mk (np_tile window [2%nat; 1%nat]) raster window
                (PyDict [(1%Z, cond1); (2%Z, cond2)])
                ["ut"; "st"; "a_0"; "a_1"; "a_2"].

Definition cat_swapped : CatSetTime.instance :=
  CatSetTime.mk (np_tile window [2%nat; 1%nat]) raster window
                (PyDict [(1%Z, cond2); (2%Z, cond1)])
                ["ut"; "st"; "a_0"; "a_1"; "a_2"].


End Examples.

(** ** Proof steps used more than once *)

(** Reading a bound local variable. *)
Ltac read_var name v :=
  match goal with
  | |- context [var ?env name] => change (var env name) with (@Ok R v)
  end; cbn [rbind].

(** The two components of a valid index of a matrix. *)
Ltac index2 H :=
  let i := fresh "i" in
  let j := fresh "j" in
  inversion H as [|i ? ? ? ? H1]; subst; clear H;
  inversion H1 as [|j ? ? ? ? H2]; subst; clear H1;
  inversion H2; subst; clear H2.

(** * Properties *)

(** ** Broadcasting *)

Section Broadcasting.

Lemma Forall2_rev {A B : Type} (P : A -> B -> Prop) (l : list A) (l' : list B) :
  Forall2 P l l' -> Forall2 P (rev l) (rev l').
Proof.
  induction 1 as [|a b l l' Hab Hl IH]; simpl.
  - constructor.
  - apply Forall2_app; [exact IH | repeat constructor; exact Hab].
Qed.

Lemma in_bounds_rev (s ix : list nat) :
  in_bounds s ix -> Forall2 lt (rev ix) (rev s).
Proof. apply Forall2_rev. Qed.

Lemma bdim_refl (d : nat) : bdim d d = Some d.
Proof. unfold bdim. now rewrite Nat.eqb_refl. Qed.

Lemma bdim_comm (d1 d2 : nat) : bdim d1 d2 = bdim d2 d1.
Proof.
  unfold bdim.
  destruct (Nat.eqb_spec d1 d2) as [->|Hne].
  - now rewrite Nat.eqb_refl.
  - destruct (Nat.eqb_spec d2 d1) as [E|_]; [congruence|].
    destruct (Nat.eqb_spec d1 1) as [->|H1];
      destruct (Nat.eqb_spec d2 1) as [->|H2]; congruence.
Qed.


Lemma bdim_one (d1 d2 : nat) : bdim d1 d2 = Some 1 -> d1 = 1.
Proof.
  unfold bdim.
  destruct (Nat.eqb_spec d1 d2); [now intros [= ->]|].
  destruct (Nat.eqb_spec d1 1); [easy|].
  destruct (Nat.eqb_spec d2 1); [now intros [= ->]|discriminate].
Qed.

Lemma bshape_rev_nil_r (s : list nat) : bshape_rev s [] = Some s.
Proof. now destruct s. Qed.

Lemma bshape_rev_refl (s : list nat) : bshape_rev s s = Some s.
Proof.
  induction s as [|d s IH]; simpl; [reflexivity|].
  now rewrite bdim_refl, IH.
Qed.

Lemma bshape_rev_comm (s1 s2 : list nat) : bshape_rev s1 s2 = bshape_rev s2 s1.
Proof.
  revert s2; induction s1 as [|d1 s1 IH]; intros [|d2 s2]; simpl; try reflexivity.
  now rewrite bdim_comm, IH.
Qed.

Lemma broadcast_shapes_comm (s1 s2 : list nat) :
  broadcast_shapes s1 s2 = broadcast_shapes s2 s1.
Proof. unfold broadcast_shapes. now rewrite bshape_rev_comm. Qed.

Lemma broadcast_shapes_nil_r (s : list nat) : broadcast_shapes s [] = Some s.
Proof.
  unfold broadcast_shapes; simpl.
  now rewrite bshape_rev_nil_r; simpl; rewrite rev_involutive.
Qed.

Lemma broadcast_shapes_nil_l (s : list nat) : broadcast_shapes [] s = Some s.
Proof. now rewrite broadcast_shapes_comm, broadcast_shapes_nil_r. Qed.

Lemma broadcast_shapes_refl (s : list nat) : broadcast_shapes s s = Some s.
Proof.
  unfold broadcast_shapes.
  now rewrite bshape_rev_refl; simpl; rewrite rev_involutive.
Qed.

Lemma bindex_rev_idem (s ix : list nat) :
  bindex_rev s (bindex_rev s ix) = bindex_rev s ix.
Proof.
  revert ix; induction s as [|d s IH]; intros [|i ix]; simpl; try reflexivity.
  rewrite IH. now destruct (d =? 1).
Qed.

Lemma bindex_idem (s ix : list nat) : bindex s (bindex s ix) = bindex s ix.
Proof. unfold bindex. now rewrite rev_involutive, bindex_rev_idem. Qed.

Lemma bindex_rev_id (s ix : list nat) :
  Forall2 lt ix s -> bindex_rev s ix = ix.
Proof.
  intros H; induction H as [|i d ix s Hlt _ IH]; simpl; [reflexivity|].
  rewrite IH. destruct (Nat.eqb_spec d 1); [f_equal; lia|reflexivity].
Qed.

(** A valid index of the array itself is read where it points. *)
Lemma bindex_id (s ix : list nat) : in_bounds s ix -> bindex s ix = ix.
Proof.
  intros H. unfold bindex.
  now rewrite (bindex_rev_id _ _ (in_bounds_rev _ _ H)), rev_involutive.
Qed.

Lemma bitem_id (a : ndarray) (ix : list nat) :
  in_bounds (shape a) ix -> bitem a ix = item a ix.
Proof. intros H. unfold bitem. now rewrite bindex_id. Qed.

Lemma bindex_nil (ix : list nat) : bindex [] ix = [].
Proof. reflexivity. Qed.

Lemma bindex_rev_compose (a b s ix : list nat) :
  bshape_rev a b = Some s ->
  bindex_rev a (bindex_rev s ix) = bindex_rev a ix.
Proof.
  revert b s ix; induction a as [|d1 a IH]; intros b s ix Hs; [reflexivity|].
  destruct b as [|d2 b]; simpl in Hs.
  - injection Hs as <-. apply bindex_rev_idem.
  - destruct (bdim d1 d2) as [d|] eqn:Hd; [|discriminate].
    destruct (bshape_rev a b) as [r|] eqn:Hr; [|discriminate].
    injection Hs as <-.
    destruct ix as [|i ix]; simpl; [reflexivity|].
    rewrite (IH _ _ _ Hr).
    destruct (Nat.eqb_spec d1 1) as [|Hn1]; [reflexivity|].
    destruct (Nat.eqb_spec d 1) as [->|]; [|reflexivity].
    now apply bdim_one in Hd.
Qed.

Lemma bindex_compose_l (a b s ix : list nat) :
  broadcast_shapes a b = Some s -> bindex a (bindex s ix) = bindex a ix.
Proof.
  unfold broadcast_shapes, bindex. intros H.
  destruct (bshape_rev (rev a) (rev b)) as [r|] eqn:Hr; [|discriminate].
  injection H as <-.
  now rewrite !rev_involutive, (bindex_rev_compose _ _ _ _ Hr).
Qed.

Lemma bindex_compose_r (a b s ix : list nat) :
  broadcast_shapes a b = Some s -> bindex b (bindex s ix) = bindex b ix.
Proof. rewrite broadcast_shapes_comm. apply bindex_compose_l. Qed.




End Broadcasting.

(** ** Sums over an index set *)

Section Sums.

Open Scope R_scope.

Lemma sum_n_ext (n : nat) (f g : nat -> R) :
  (forall i, (i < n)%nat -> f i = g i) -> sum_n n f = sum_n n g.
Proof.
  induction n as [|n IH]; intros H; simpl; [reflexivity|].
  rewrite IH, (H n) by (intros; try apply H; lia). reflexivity.
Qed.

Lemma sum_n_nonneg (n : nat) (f : nat -> R) :
  (forall i, (i < n)%nat -> 0 <= f i) -> 0 <= sum_n n f.
Proof.
  induction n as [|n IH]; intros H; simpl; [lra|].
  assert (0 <= sum_n n f) by (apply IH; intros; apply H; lia).
  assert (0 <= f n) by (apply H; lia). lra.
Qed.

Lemma sum_n_pos (n : nat) (f : nat -> R) :
  (forall i, (i < n)%nat -> 0 < f i) -> (0 < n)%nat -> 0 < sum_n n f.
Proof.
  intros H Hn. destruct n as [|n]; [lia|]. simpl.
  assert (0 <= sum_n n f).
  { apply sum_n_nonneg. intros i Hi. apply Rlt_le, H. lia. }
  assert (0 < f n) by (apply H; lia). lra.
Qed.

Lemma sum_over_ext (s : list nat) (f g : list nat -> R) :
  (forall ix, in_bounds s ix -> f ix = g ix) -> sum_over s f = sum_over s g.
Proof.
  revert f g; induction s as [|n s IH]; intros f g H; simpl.
  - apply H. constructor.
  - apply sum_n_ext. intros i Hi. apply IH. intros ix Hix.
    apply H. now constructor.
Qed.


Lemma sum_over_pos (s : list nat) (f : list nat -> R) :
  (forall ix, in_bounds s ix -> 0 < f ix) -> (0 < size s)%nat -> 0 < sum_over s f.
Proof.
  revert f; induction s as [|n s IH]; intros f H Hs; simpl.
  - apply H. constructor.
  - simpl in Hs. apply sum_n_pos; [|nia].
    intros i Hi. apply IH; [|nia]. intros ix Hix. apply H. now constructor.
Qed.



End Sums.

(** ** Elementwise operators, read through broadcasting *)

Section Ufuncs.

Lemma bitem_scalar (r : R) (ix : list nat) : bitem (scalar r) ix = r.
Proof. reflexivity. Qed.

Lemma bitem_ufunc1 (f : R -> R) (a : ndarray) (ix : list nat) :
  bitem (ufunc1 f a) ix = f (bitem a ix).
Proof. reflexivity. Qed.

Lemma ufunc2_inv (f : R -> R -> R) (a b c : ndarray) :
  ufunc2 f a b = Ok c ->
  broadcast_shapes (shape a) (shape b) = Some (shape c) /\
  forall ix, bitem c ix = f (bitem a ix) (bitem b ix).
Proof.
  unfold ufunc2.
  destruct (broadcast_shapes (shape a) (shape b)) as [s|] eqn:Hs; [|discriminate].
  intros [= <-]. split; [reflexivity|].
  intros ix. unfold bitem; simpl.
  now rewrite (bindex_compose_l _ _ _ _ Hs), (bindex_compose_r _ _ _ _ Hs).
Qed.

Lemma ufunc2_total (f : R -> R -> R) (a b : ndarray) (s : list nat) :
  broadcast_shapes (shape a) (shape b) = Some s ->
  exists c, ufunc2 f a b = Ok c /\ shape c = s.
Proof. intros Hs. unfold ufunc2. rewrite Hs. now eexists. Qed.

Lemma ufunc2_scalar_r (f : R -> R -> R) (a : ndarray) (r : R) :
  exists c, ufunc2 f a (scalar r) = Ok c /\ shape c = shape a.
Proof. apply ufunc2_total, broadcast_shapes_nil_r. Qed.

Lemma ufunc2_scalar_l (f : R -> R -> R) (r : R) (b : ndarray) :
  exists c, ufunc2 f (scalar r) b = Ok c /\ shape c = shape b.
Proof. apply ufunc2_total, broadcast_shapes_nil_l. Qed.

Lemma ufunc2_error (f : R -> R -> R) (a b : ndarray) :
  broadcast_shapes (shape a) (shape b) = None -> ufunc2 f a b = Err ValueError.
Proof. intros Hs. unfold ufunc2. now rewrite Hs. Qed.

(** [np.sum] adds up the elements at the valid indices. *)
Lemma np_sum_bitem (a : ndarray) : np_sum a = sum_over (shape a) (bitem a).
Proof.
  unfold np_sum. apply sum_over_ext. intros ix Hix. now rewrite bitem_id.
Qed.

End Ufuncs.

(** ** The shared expressions *)

Section SharedExpressions.

Open Scope R_scope.

(** The gaussian factor is defined for every array [t] and has its shape. *)
Lemma gauss_spec (t : ndarray) (ut st : R) :
  exists g, gauss t ut st = Ok g /\ shape g = shape t /\
            forall ix, bitem g ix = exp (- (bitem t ix - ut) ^ 2 / (2 * st ^ 2)).
Proof.
  unfold gauss, np_subtract, np_multiply, np_divide.
  destruct (ufunc2_scalar_r Rminus t ut) as (d & Hd & Hsd).
  destruct (ufunc2_scalar_l Rmult 2 (np_power (scalar st) 2)) as (den & Hden & Hsden).
  destruct (ufunc2_total Rdiv (np_negative (np_power d 2)) den (shape d))
    as (q & Hq & Hsq).
  { rewrite Hsden. apply broadcast_shapes_nil_r. }
  rewrite Hd; cbn [rbind]. rewrite Hden; cbn [rbind]. rewrite Hq; cbn [rbind].
  exists (np_exp q). split; [reflexivity|]. split.
  - simpl. congruence.
  - intros ix.
    apply ufunc2_inv in Hd, Hden, Hq.
    destruct Hd as [_ Hd], Hden as [_ Hden], Hq as [_ Hq].
    unfold np_exp. rewrite bitem_ufunc1, Hq, Hden.
    unfold np_negative, np_power. rewrite !bitem_ufunc1, Hd, !bitem_scalar.
    reflexivity.
Qed.

(** The body of [objective] computes the cost of the specification, and
    fails exactly when observations and predictions cannot be aligned. *)
Lemma log_loss_spec (o f : ndarray) : log_loss o f = bernoulli_cost o f.
Proof.
  unfold log_loss, bernoulli_cost, np_multiply, np_subtract, np_add.
  destruct (broadcast_shapes (shape o) (shape f)) as [sh|] eqn:Hsh.
  - destruct (ufunc2_total Rmult o (np_negative (np_log f)) sh Hsh) as (l & Hl & Hsl).
    destruct (ufunc2_scalar_l Rminus 1 o) as (ns & Hns & Hsns).
    destruct (ufunc2_scalar_l Rminus 1 f) as (nf & Hnf & Hsnf).
    destruct (ufunc2_total Rmult ns (np_negative (np_log nf)) sh) as (r & Hr & Hsr).
    { simpl. now rewrite Hsns, Hsnf. }
    destruct (ufunc2_total Rplus l r sh) as (s & Hs & Hss).
    { rewrite Hsl, Hsr. apply broadcast_shapes_refl. }
    rewrite Hl; cbn [rbind]. rewrite Hns; cbn [rbind]. rewrite Hnf; cbn [rbind].
    rewrite Hr; cbn [rbind]. rewrite Hs; cbn [rbind].
    f_equal. rewrite np_sum_bitem, Hss. unfold bernoulli_nll.
    apply sum_over_ext. intros ix _.
    apply ufunc2_inv in Hl, Hns, Hnf, Hr, Hs.
    destruct Hl as [_ Hl], Hns as [_ Hns], Hnf as [_ Hnf], Hr as [_ Hr], Hs as [_ Hs].
    rewrite Hs, Hl, Hr, Hns. unfold np_negative, np_log.
    rewrite !bitem_ufunc1, Hnf, !bitem_scalar. ring.
  - now rewrite (ufunc2_error Rmult o (np_negative (np_log f)) Hsh).
Qed.

(** With equal shapes the alignment is index for index. *)
Lemma bernoulli_cost_aligned (o p : ndarray) :
  shape o = shape p ->
  bernoulli_cost o p =
  Ok (sum_over (shape o)
        (fun i => - item o i * ln (item p i) - (1 - item o i) * ln (1 - item p i))).
Proof.
  intros Hsh. unfold bernoulli_cost.
  rewrite <- Hsh, broadcast_shapes_refl. f_equal.
  apply sum_over_ext. intros ix Hix.
  rewrite !bitem_id by (rewrite <- ?Hsh; exact Hix). reflexivity.
Qed.

End SharedExpressions.

(** ** The Time model *)


Section TimeModel.

Open Scope R_scope.

Lemma Time_model_expr_spec (t : ndarray) (a_1 ut st a_0 : R) :
  exists p,
    Time.model_expr t [("a_1", a_1); ("ut", ut); ("st", st); ("a_0", a_0)] = Ok p /\
    shape p = shape t /\
    forall ix, bitem p ix = a_1 * exp (- (bitem t ix - ut) ^ 2 / (2 * st ^ 2)) + a_0.
Proof.
  unfold Time.model_expr, np_multiply, np_add.
  read_var "a_1" a_1. read_var "ut" ut. read_var "st" st.
  destruct (gauss_spec t ut st) as (g & Hg & Hsg & Hgi).
  rewrite Hg; cbn [rbind].
  destruct (ufunc2_scalar_l Rmult a_1 g) as (m & Hm & Hsm).
  rewrite Hm; cbn [rbind]. read_var "a_0" a_0.
  destruct (ufunc2_scalar_r Rplus m a_0) as (p & Hp & Hsp).
  exists p. split; [exact Hp|]. split; [congruence|].
  intros ix. apply ufunc2_inv in Hm, Hp.
  destruct Hm as [_ Hm], Hp as [_ Hp].
  now rewrite Hp, Hm, Hgi, !bitem_scalar.
Qed.

(** A call with four parameters returns the prediction and caches it. *)
Lemma Time_model_spec (self : Time.instance) (a_1 ut st a_0 : R) :
  exists p,
    Time.model [a_1; ut; st; a_0] self = (Time.set_function self p, Ok p) /\
    shape p = shape (Time.t self) /\
    forall ix, bitem p ix = a_1 * exp (- (bitem (Time.t self) ix - ut) ^ 2 / (2 * st ^ 2)) + a_0.
Proof.
  destruct (Time_model_expr_spec (Time.t self) a_1 ut st a_0) as (p & Hp & Hs & Hi).
  exists p. split; [|now split].
  unfold Time.model, Time.unpack; cbn [rbind]. now rewrite Hp.
Qed.

(** Any other number of parameters fails at the unpacking. *)
Lemma Time_model_arity (self : Time.instance) (x : list R) :
  length x <> 4%nat -> Time.model x self = (self, Err ValueError).
Proof.
  intros Hlen. unfold Time.model, Time.unpack.
  destruct x as [|x0 [|x1 [|x2 [|x3 [|x4 x]]]]]; try reflexivity.
  now elim Hlen.
Qed.

End TimeModel.

(** ** Claims on the objective and on the peak of the gaussian *)

Section Objective.

Open Scope R_scope.

(** C1: for every parameter vector and every instance of [Time] or
    [CatSetTime], [objective] returns the Bernoulli negative log-likelihood
    [sum_i [ -o_i*log(p_i) - (1-o_i)*log(1-p_i) ]] of the observed spikes
    [o] and the prediction [p] returned by [model]; an exception of [model]
    is passed on, and the sum runs index for index over the observations
    when spikes and prediction have the same shape. *)
Theorem objective_is_bernoulli_nll (x : list R) :
  (forall self : Time.instance,
      Time.objective x self =
      (fst (Time.model x self),
       p <- snd (Time.model x self) ;;
       bernoulli_cost (Time.spikes (fst (Time.model x self))) p)) /\
  (forall self : CatSetTime.instance,
      CatSetTime.objective x self =
      (fst (CatSetTime.model x self),
       p <- snd (CatSetTime.model x self) ;;
       bernoulli_cost (CatSetTime.spikes (fst (CatSetTime.model x self))) p)) /\
  (forall o p : ndarray,
      shape o = shape p ->
      bernoulli_cost o p =
      Ok (sum_over (shape o)
            (fun i => - item o i * ln (item p i) - (1 - item o i) * ln (1 - item p i)))).
Proof.
  split; [|split].
  - intros self. unfold Time.objective, mbind.
    destruct (Time.model x self) as [self' [p|e]]; cbn [fst snd rbind];
      [now rewrite log_loss_spec | reflexivity].
  - intros self. unfold CatSetTime.objective, mbind.
    destruct (CatSetTime.model x self) as [self' [p|e]]; cbn [fst snd rbind];
      [now rewrite log_loss_spec | reflexivity].
  - exact bernoulli_cost_aligned.
Qed.

Lemma objective_is_bernoulli_nll_witness :
  bernoulli_cost (array1 [1; 0]) (array1 [1 / 2; 1 / 4]) =
  Ok (sum_over (shape (array1 [1; 0]))
        (fun i => - item (array1 [1; 0]) i * ln (item (array1 [1 / 2; 1 / 4]) i)
                  - (1 - item (array1 [1; 0]) i)
                    * ln (1 - item (array1 [1 / 2; 1 / 4]) i))).
Proof.
  apply (proj2 (proj2 (objective_is_bernoulli_nll []))). reflexivity.
Defined.

(** C2: for the [Time] model, whose [param_names] are
    [["a_1"; "ut"; "st"; "a_0"]], with the time window held being the single
    point [[0]] and the parameters [a_1 = 1], [ut = 0], [st = 1], [a_0 = 0],
    [model] returns an array of one element, whose value is 1. *)
Theorem time_model_peak_value (self : Time.instance) :
  Time.t self = array1 [0] ->
  exists p,
    snd (Time.model [1; 0; 1; 0] self) = Ok p /\
    shape p = [1%nat] /\
    item p [0%nat] = 1.
Proof.
  intros Ht.
  destruct (Time_model_spec self 1 0 1 0) as (p & Hm & Hs & Hi).
  rewrite Ht in Hs, Hi.
  exists p. rewrite Hm. split; [reflexivity|]. split; [exact Hs|].
  rewrite <- bitem_id by (rewrite Hs; repeat constructor).
  rewrite Hi. change (bitem (array1 [0]) [0%nat]) with 0.
  replace (- (0 - 0) ^ 2 / (2 * 1 ^ 2)) with 0 by (simpl; field).
  rewrite exp_0. ring.
Qed.

Lemma time_model_peak_value_witness :
  exists p,
    snd (Time.model [1; 0; 1; 0]
           (Time.mk (array1 [0]) (array1 [1]) ["a_1"; "ut"; "st"; "a_0"] None)) = Ok p /\
    shape p = [1%nat] /\
    item p [0%nat] = 1.
Proof.
  apply (time_model_peak_value
           (Time.mk (array1 [0]) (array1 [1]) ["a_1"; "ut"; "st"; "a_0"] None)).
  reflexivity.
Defined.

End Objective.


(** ** The CatSetTime model *)

Section CatSetTimeModel.

Open Scope R_scope.


Lemma CatSetTime_unpack_ok (ut st a_0 a_1 a_2 : R) (rest : list R) :
  CatSetTime.unpack (ut :: st :: a_0 :: a_1 :: a_2 :: rest) =
  Ok (cat_env ut st a_0 a_1 a_2).
Proof. reflexivity. Qed.

Lemma CatSetTime_unpack_short (x : list R) :
  (length x < 5)%nat -> CatSetTime.unpack x = Err IndexError.
Proof.
  intros Hlen.
  destruct x as [|x0 [|x1 [|x2 [|x3 [|x4 x]]]]]; try reflexivity.
  simpl in Hlen. lia.
Qed.

Lemma CatSetTime_model_expr_ok (t c1 c2 : ndarray) (ut st a_0 a_1 a_2 : R)
      (sh : list nat) :
  cat_shape (shape c1) (shape t) (shape c2) = Some sh ->
  exists p,
    CatSetTime.model_expr t c1 c2 (cat_env ut st a_0 a_1 a_2) = Ok p /\
    shape p = sh /\
    forall ix, bitem p ix =
               cat_prediction a_1 a_2 a_0 ut st (bitem c1 ix) (bitem c2 ix) (bitem t ix).
Proof.
  unfold cat_shape. intros Hsh.
  destruct (broadcast_shapes (shape c1) (shape t)) as [s1|] eqn:Hs1; [|discriminate].
  destruct (broadcast_shapes (shape c2) (shape t)) as [s2|] eqn:Hs2; [|discriminate].
  unfold CatSetTime.model_expr, cat_env, np_multiply, np_add.
  read_var "a_1" a_1.
  destruct (ufunc2_scalar_l Rmult a_1 c1) as (m1 & Hm1 & Hsm1).
  rewrite Hm1; cbn [rbind].
  read_var "ut" ut. read_var "st" st.
  destruct (gauss_spec t ut st) as (g & Hg & Hsg & Hgi).
  rewrite Hg; cbn [rbind].
  destruct (ufunc2_total Rmult m1 g s1) as (l & Hl & Hsl); [congruence|].
  rewrite Hl; cbn [rbind].
  read_var "a_2" a_2.
  destruct (ufunc2_scalar_l Rmult a_2 c2) as (m2 & Hm2 & Hsm2).
  rewrite Hm2; cbn [rbind].
  destruct (ufunc2_total Rmult m2 g s2) as (r & Hr & Hsr); [congruence|].
  rewrite Hr; cbn [rbind].
  destruct (ufunc2_total Rplus l r sh) as (s & Hs & Hss); [congruence|].
  rewrite Hs; cbn [rbind].
  read_var "a_0" a_0.
  destruct (ufunc2_scalar_r Rplus s a_0) as (p & Hp & Hsp).
  exists p. split; [exact Hp|]. split; [congruence|].
  intros ix. apply ufunc2_inv in Hm1, Hl, Hm2, Hr, Hs, Hp.
  destruct Hm1 as [_ Hm1], Hl as [_ Hl], Hm2 as [_ Hm2], Hr as [_ Hr],
           Hs as [_ Hs], Hp as [_ Hp].
  rewrite Hp, Hs, Hl, Hr, Hm1, Hm2, Hgi, !bitem_scalar.
  unfold cat_prediction. ring.
Qed.

Lemma CatSetTime_model_expr_error (t c1 c2 : ndarray) (ut st a_0 a_1 a_2 : R) :
  cat_shape (shape c1) (shape t) (shape c2) = None ->
  CatSetTime.model_expr t c1 c2 (cat_env ut st a_0 a_1 a_2) = Err ValueError.
Proof.
  unfold cat_shape. intros Hsh.
  unfold CatSetTime.model_expr, cat_env, np_multiply, np_add.
  read_var "a_1" a_1.
  destruct (ufunc2_scalar_l Rmult a_1 c1) as (m1 & Hm1 & Hsm1).
  rewrite Hm1; cbn [rbind].
  read_var "ut" ut. read_var "st" st.
  destruct (gauss_spec t ut st) as (g & Hg & Hsg & Hgi).
  rewrite Hg; cbn [rbind].
  destruct (broadcast_shapes (shape c1) (shape t)) as [s1|] eqn:Hs1.
  - destruct (ufunc2_total Rmult m1 g s1) as (l & Hl & Hsl); [congruence|].
    rewrite Hl; cbn [rbind].
    read_var "a_2" a_2.
    destruct (ufunc2_scalar_l Rmult a_2 c2) as (m2 & Hm2 & Hsm2).
    rewrite Hm2; cbn [rbind].
    destruct (broadcast_shapes (shape c2) (shape t)) as [s2|] eqn:Hs2.
    + destruct (ufunc2_total Rmult m2 g s2) as (r & Hr & Hsr); [congruence|].
      rewrite Hr; cbn [rbind].
      rewrite (ufunc2_error Rplus l r); [reflexivity|congruence].
    + rewrite (ufunc2_error Rmult m2 g); [reflexivity|congruence].
  - rewrite (ufunc2_error Rmult m1 g); [reflexivity|congruence].
Qed.

(** Entries of the parameter vector after the fifth are never read. *)
Lemma CatSetTime_model_ignores_tail (self : CatSetTime.instance)
      (ut st a_0 a_1 a_2 : R) (rest : list R) :
  CatSetTime.model (ut :: st :: a_0 :: a_1 :: a_2 :: rest) self =
  CatSetTime.model [ut; st; a_0; a_1; a_2] self.
Proof. reflexivity. Qed.

Lemma CatSetTime_model_short (self : CatSetTime.instance) (x : list R) :
  (length x < 5)%nat -> CatSetTime.model x self = (self, Err IndexError).
Proof.
  intros Hlen. unfold CatSetTime.model.
  now rewrite (CatSetTime_unpack_short x Hlen).
Qed.

End CatSetTimeModel.


Section ExampleFacts.

Lemma time_init_example :
  Time.init Examples.Model_init Examples.data = Ok Examples.time.
Proof. reflexivity. Qed.

Lemma cat_init_example :
  CatSetTime.init Examples.Model_init Examples.data = Ok Examples.cat.
Proof. reflexivity. Qed.

Lemma cat_init_example_swapped :
  CatSetTime.init Examples.Model_init Examples.data_swapped = Ok Examples.cat_swapped.
Proof. reflexivity. Qed.

End ExampleFacts.

(** ** Frame and dependence lemmas *)

Section Frames.

Lemma Time_model_writes (x : list R) (self : Time.instance) :
  Time.model x self = (self, snd (Time.model x self)) \/
  exists f, Time.model x self = (Time.set_function self f, Ok f).
Proof.
  unfold Time.model.
  destruct (env <- Time.unpack x ;; Time.model_expr (Time.t self) env) as [f|e].
  - right. now exists f.
  - now left.
Qed.

Lemma Time_objective_state (x : list R) (self : Time.instance) :
  fst (Time.objective x self) = fst (Time.model x self).
Proof.
  unfold Time.objective, mbind.
  now destruct (Time.model x self) as [self' [p|e]].
Qed.

Lemma Time_model_frame (x : list R) (self : Time.instance) :
  Time.t (fst (Time.model x self)) = Time.t self /\
  Time.spikes (fst (Time.model x self)) = Time.spikes self /\
  Time.param_names (fst (Time.model x self)) = Time.param_names self.
Proof.
  destruct (Time_model_writes x self) as [H|[f H]]; rewrite H; now simpl.
Qed.

(** The prediction depends on the instance through [t] only. *)
Lemma Time_model_depends (x : list R) (s1 s2 : Time.instance) :
  Time.t s1 = Time.t s2 -> snd (Time.model x s1) = snd (Time.model x s2).
Proof.
  intros Ht. unfold Time.model. rewrite Ht.
  now destruct (env <- Time.unpack x ;; Time.model_expr (Time.t s2) env).
Qed.

(** The cost depends on the instance through [t] and [spikes] only. *)
Lemma Time_objective_depends (x : list R) (s1 s2 : Time.instance) :
  Time.t s1 = Time.t s2 -> Time.spikes s1 = Time.spikes s2 ->
  snd (Time.objective x s1) = snd (Time.objective x s2).
Proof.
  intros Ht Hs. unfold Time.objective, mbind.
  pose proof (Time_model_depends x s1 s2 Ht) as Hm.
  pose proof (Time_model_frame x s1) as (_ & Hs1 & _).
  pose proof (Time_model_frame x s2) as (_ & Hs2 & _).
  destruct (Time.model x s1) as [s1' [p1|e1]], (Time.model x s2) as [s2' [p2|e2]];
    simpl in *; congruence.
Qed.

Lemma Time_step_frame (c : call) (self : Time.instance) :
  Time.t (TimeCalls.step c self) = Time.t self /\
  Time.spikes (TimeCalls.step c self) = Time.spikes self /\
  Time.param_names (TimeCalls.step c self) = Time.param_names self.
Proof.
  destruct c as [x|x]; simpl; [|rewrite Time_objective_state];
    apply Time_model_frame.
Qed.

Lemma Time_run_frame (h : list call) (self : Time.instance) :
  Time.t (TimeCalls.run h self) = Time.t self /\
  Time.spikes (TimeCalls.run h self) = Time.spikes self /\
  Time.param_names (TimeCalls.run h self) = Time.param_names self.
Proof.
  revert self; induction h as [|c h IH]; intros self; [now simpl|].
  change (TimeCalls.run (c :: h) self) with (TimeCalls.run h (TimeCalls.step c self)).
  destruct (IH (TimeCalls.step c self)) as (-> & -> & ->).
  apply Time_step_frame.
Qed.

Lemma CatSetTime_model_state (x : list R) (self : CatSetTime.instance) :
  fst (CatSetTime.model x self) = self.
Proof. reflexivity. Qed.

Lemma CatSetTime_objective_state (x : list R) (self : CatSetTime.instance) :
  fst (CatSetTime.objective x self) = self.
Proof.
  unfold CatSetTime.objective, mbind, CatSetTime.model.
  now destruct (env <- CatSetTime.unpack x ;; _).
Qed.

Lemma CatSetTime_run_state (h : list call) (self : CatSetTime.instance) :
  CatSetTimeCalls.run h self = self.
Proof.
  induction h as [|c h IH]; [reflexivity|].
  change (CatSetTimeCalls.run (c :: h) self)
    with (CatSetTimeCalls.run h (CatSetTimeCalls.step c self)).
  destruct c as [x|x]; cbn [CatSetTimeCalls.step];
    [rewrite CatSetTime_model_state | rewrite CatSetTime_objective_state];
    exact IH.
Qed.

End Frames.

(** ** Claims on the parameter vector *)

Section Parameters.

Open Scope R_scope.

(** C3: a parameter vector whose length differs from [len(param_names)]
    should be detected as an error.  [CatSetTime.model] reads [x[0]] to
    [x[4]] by index, so on the sample instance a vector of six entries is
    accepted by [model] and by [objective], and gives the result of its
    first five entries: the sixth is dropped silently. *)
Theorem catset_model_accepts_longer_vector :
  length [0; 1; 0; 1; 2; 7] <> length (CatSetTime.param_names Examples.cat) /\
  is_ok (snd (CatSetTime.model [0; 1; 0; 1; 2; 7] Examples.cat)) = true /\
  is_ok (snd (CatSetTime.objective [0; 1; 0; 1; 2; 7] Examples.cat)) = true /\
  CatSetTime.model [0; 1; 0; 1; 2; 7] Examples.cat =
  CatSetTime.model [0; 1; 0; 1; 2] Examples.cat.
Proof.
  split; [simpl; lia|].
  split; [reflexivity|].
  split; reflexivity.
Qed.

(** C4: for a constructed instance of either model, [param_names] has as
    many entries as [model] (and [objective], through it) unpacks from [x],
    4 for [Time] and 5 for [CatSetTime], and the i-th name is the name of
    the variable that receives [x[i]]. *)
Theorem param_names_match_unpacking
        (Model_init : pydict -> result Model.instance) (data : pydict) :
  (forall self : Time.instance,
      Time.init Model_init data = Ok self ->
      length (Time.param_names self) = 4%nat /\
      forall x : list R,
        (length x = length (Time.param_names self) ->
         exists env, Time.unpack x = Ok env) /\
        (forall env, Time.unpack x = Ok env ->
                     map fst env = Time.param_names self /\ map snd env = x)) /\
  (forall self : CatSetTime.instance,
      CatSetTime.init Model_init data = Ok self ->
      length (CatSetTime.param_names self) = 5%nat /\
      forall x : list R,
        (length x = length (CatSetTime.param_names self) ->
         exists env, CatSetTime.unpack x = Ok env) /\
        (forall env, CatSetTime.unpack x = Ok env ->
                     map fst env = CatSetTime.param_names self /\
                     map snd env = firstn 5 x)).
Proof.
  split.
  - intros self Hinit. unfold Time.init in Hinit.
    destruct (Model_init data) as [base|e]; [|discriminate].
    injection Hinit as <-. split; [reflexivity|]. intros x. split.
    + intros Hlen.
      destruct x as [|x0 [|x1 [|x2 [|x3 [|x4 x]]]]]; try discriminate Hlen.
      now eexists.
    + intros env Henv.
      destruct x as [|x0 [|x1 [|x2 [|x3 [|x4 x]]]]]; try discriminate Henv.
      injection Henv as <-. now split.
  - intros self Hinit. unfold CatSetTime.init in Hinit.
    destruct (Model_init data) as [base|e]; [|discriminate].
    cbn [rbind] in Hinit.
    destruct (data_getitem data "num_trials") as [nt|e]; [|discriminate].
    cbn [rbind] in Hinit.
    destruct (CatSetTime.as_reps nt) as [n|e]; [|discriminate].
    cbn [rbind] in Hinit.
    destruct (data_getitem data "conditions") as [conds|e]; [|discriminate].
    injection Hinit as <-. split; [reflexivity|]. intros x. split.
    + intros Hlen.
      destruct x as [|x0 [|x1 [|x2 [|x3 [|x4 [|x5 x]]]]]]; try discriminate Hlen.
      now eexists.
    + intros env Henv.
      destruct x as [|x0 [|x1 [|x2 [|x3 [|x4 x]]]]]; try discriminate Henv.
      injection Henv as <-. now split.
Qed.

Lemma param_names_match_unpacking_witness :
  length (Time.param_names Examples.time) = 4%nat /\
  length (CatSetTime.param_names Examples.cat) = 5%nat.
Proof.
  split.
  - exact (proj1 (proj1 (param_names_match_unpacking
                           Examples.Model_init Examples.data)
                        Examples.time eq_refl)).
  - exact (proj1 (proj2 (param_names_match_unpacking
                           Examples.Model_init Examples.data)
                        Examples.cat eq_refl)).
Defined.

End Parameters.

(** ** Claims on the values of the cost and of the predictions *)

Section Values.

Open Scope R_scope.



Lemma size_pos_or_zero (s : list nat) : (0 < size s)%nat \/ size s = 0%nat.
Proof. lia. Qed.

(** The gaussian factor lies in (0, 1]. *)
Lemma gauss_factor_range (t ut st : R) :
  0 < exp (- (t - ut) ^ 2 / (2 * st ^ 2)) <= 1.
Proof.
  split; [apply exp_pos|].
  rewrite <- exp_0.
  assert (Harg : - (t - ut) ^ 2 / (2 * st ^ 2) <= 0).
  { unfold Rdiv.
    pose proof (pow2_ge_0 (t - ut)) as Hnum.
    pose proof (pow2_ge_0 st) as Hst.
    assert (Hinv : 0 <= / (2 * st ^ 2)).
    { destruct (Req_dec (2 * st ^ 2) 0) as [-> | Hne].
      - rewrite Rinv_0. lra.
      - apply Rlt_le, Rinv_0_lt_compat. lra. }
    rewrite <- Ropp_mult_distr_l.
    pose proof (Rmult_le_pos _ _ Hnum Hinv). lra. }
  destruct Harg as [Hlt | ->]; [apply Rlt_le, exp_increasing, Hlt | lra].
Qed.






End Values.

(** ** Claims on the category model *)

Section Categories.

Open Scope R_scope.

(** Exchanging the two indicator values changes the prediction whenever
    the amplitudes differ and the indicator values differ. *)
Lemma cat_prediction_swap (a_1 a_2 a_0 ut st c1 c2 t : R) :
  a_1 <> a_2 -> c1 <> c2 ->
  cat_prediction a_1 a_2 a_0 ut st c1 c2 t <>
  cat_prediction a_1 a_2 a_0 ut st c2 c1 t.
Proof.
  intros Ha Hc Heq. unfold cat_prediction in Heq.
  pose proof (exp_pos (- (t - ut) ^ 2 / (2 * st ^ 2))) as Hg.
  set (g := exp (- (t - ut) ^ 2 / (2 * st ^ 2))) in *.
  assert (Hprod : (a_1 - a_2) * (c1 - c2) * g = 0) by lra.
  apply Rmult_integral in Hprod. destruct Hprod as [Hprod | Hprod]; [|lra].
  apply Rmult_integral in Hprod. destruct Hprod; lra.
Qed.

(** C6: there are condition indicators [c1], [c2] that differ across
    trials and parameters with [a_1 <> a_2] for which exchanging the
    indicator each amplitude multiplies changes what [CatSetTime.model]
    returns: on the sample data, with amplitudes 1 and 2, the prediction for
    trial 0 at the centre of the window is not the same after the
    exchange. *)
Theorem catset_pairing_does_not_commute :
  exists (self swapped : CatSetTime.instance) (c1 c2 : ndarray)
         (ut st a_0 a_1 a_2 : R) (p q : ndarray) (ix : list nat),
    CatSetTime.conditions self = PyDict [(1%Z, c1); (2%Z, c2)] /\
    CatSetTime.conditions swapped = PyDict [(1%Z, c2); (2%Z, c1)] /\
    CatSetTime.t swapped = CatSetTime.t self /\
    CatSetTime.spikes swapped = CatSetTime.spikes self /\
    item c1 [0%nat; 0%nat] <> item c1 [1%nat; 0%nat] /\
    item c2 [0%nat; 0%nat] <> item c2 [1%nat; 0%nat] /\
    a_1 <> a_2 /\
    snd (CatSetTime.model [ut; st; a_0; a_1; a_2] self) = Ok p /\
    snd (CatSetTime.model [ut; st; a_0; a_1; a_2] swapped) = Ok q /\
    shape q = shape p /\
    in_bounds (shape p) ix /\
    item p ix <> item q ix.
Proof.
  destruct (CatSetTime_model_expr_ok (CatSetTime.t Examples.cat)
              Examples.cond1 Examples.cond2 0 1 0 1 2 [2; 3]%nat eq_refl)
    as (p & Hp & Hsp & Hpi).
  destruct (CatSetTime_model_expr_ok (CatSetTime.t Examples.cat)
              Examples.cond2 Examples.cond1 0 1 0 1 2 [2; 3]%nat eq_refl)
    as (q & Hq & Hsq & Hqi).
  exists Examples.cat, Examples.cat_swapped, Examples.cond1, Examples.cond2.
  exists 0, 1, 0, 1, 2, p, q, [0; 1]%nat.
  assert (Hin : in_bounds (shape p) [0; 1]%nat).
  { rewrite Hsp. repeat constructor. }
  repeat split; try reflexivity; try (simpl; lra); try assumption.
  - congruence.
  - rewrite <- (bitem_id p) by exact Hin.
    rewrite <- (bitem_id q) by (rewrite Hsq, <- Hsp; exact Hin).
    rewrite Hpi, Hqi.
    apply cat_prediction_swap; [lra|].
    change (bitem Examples.cond1 [0; 1]%nat) with 1.
    change (bitem Examples.cond2 [0; 1]%nat) with 0. lra.
Qed.

(** C9: in [CatSetTime.model] both condition terms have the centre [ut]
    and the width [st]: with at least five parameters and both indicators
    present, the call returns exactly when the shapes of [c1], [t] and [c2]
    can be broadcast together, and every element of the prediction is
    [(a_1*c1 + a_2*c2) * exp(-(t-ut)^2 / (2*st^2)) + a_0]. *)
Theorem catset_model_shared_gaussian
        (self : CatSetTime.instance) (ut st a_0 a_1 a_2 : R) (rest : list R)
        (c1 c2 : ndarray) :
  py_getitem (CatSetTime.conditions self) 1 = Ok c1 ->
  py_getitem (CatSetTime.conditions self) 2 = Ok c2 ->
  match snd (CatSetTime.model (ut :: st :: a_0 :: a_1 :: a_2 :: rest) self) with
  | Ok p =>
      cat_shape (shape c1) (shape (CatSetTime.t self)) (shape c2) = Some (shape p) /\
      forall ix, in_bounds (shape p) ix ->
                 item p ix =
                 cat_prediction a_1 a_2 a_0 ut st
                                (bitem c1 ix) (bitem c2 ix)
                                (bitem (CatSetTime.t self) ix)
  | Err e =>
      e = ValueError /\
      cat_shape (shape c1) (shape (CatSetTime.t self)) (shape c2) = None
  end.
Proof.
  intros Hc1 Hc2. unfold CatSetTime.model; cbn [snd].
  rewrite CatSetTime_unpack_ok; cbn [rbind].
  rewrite Hc1, Hc2; cbn [rbind].
  destruct (cat_shape (shape c1) (shape (CatSetTime.t self)) (shape c2))
    as [sh|] eqn:Hsh.
  - destruct (CatSetTime_model_expr_ok _ _ _ ut st a_0 a_1 a_2 _ Hsh)
      as (p & Hp & Hsp & Hpi).
    rewrite Hp. split; [congruence|].
    intros ix Hix. rewrite <- bitem_id by exact Hix. apply Hpi.
  - rewrite (CatSetTime_model_expr_error _ _ _ ut st a_0 a_1 a_2 Hsh).
    now split.
Qed.

Lemma catset_model_shared_gaussian_witness :
  match snd (CatSetTime.model [0; 1; 0; 1; 2] Examples.cat) with
  | Ok p =>
      cat_shape (shape Examples.cond1) (shape (CatSetTime.t Examples.cat))
                (shape Examples.cond2) = Some (shape p) /\
      forall ix, in_bounds (shape p) ix ->
                 item p ix =
                 cat_prediction 1 2 0 0 1
                                (bitem Examples.cond1 ix) (bitem Examples.cond2 ix)
                                (bitem (CatSetTime.t Examples.cat) ix)
  | Err e =>
      e = ValueError /\
      cat_shape (shape Examples.cond1) (shape (CatSetTime.t Examples.cat))
                (shape Examples.cond2) = None
  end.
Proof.
  apply (catset_model_shared_gaussian Examples.cat 0 1 0 1 2 []
           Examples.cond1 Examples.cond2); reflexivity.
Defined.

End Categories.

(** ** Claims on state: determinism, frame and the cached prediction *)

Section State.

Open Scope R_scope.

(** C7: for either model, what [model] and [objective] return is fixed by
    the construction data and the parameter vector: two instances
    constructed from the same data return the same prediction and the same
    cost for every [x], whatever calls were made on each of them before (in
    particular a call repeated on one instance returns what it returned the
    first time). *)
Theorem model_and_objective_deterministic
        (Model_init : pydict -> result Model.instance) (data : pydict)
        (x : list R) (h1 h2 : list call) :
  (forall s1 s2 : Time.instance,
      Time.init Model_init data = Ok s1 ->
      Time.init Model_init data = Ok s2 ->
      snd (Time.model x (TimeCalls.run h1 s1)) =
      snd (Time.model x (TimeCalls.run h2 s2)) /\
      snd (Time.objective x (TimeCalls.run h1 s1)) =
      snd (Time.objective x (TimeCalls.run h2 s2))) /\
  (forall s1 s2 : CatSetTime.instance,
      CatSetTime.init Model_init data = Ok s1 ->
      CatSetTime.init Model_init data = Ok s2 ->
      snd (CatSetTime.model x (CatSetTimeCalls.run h1 s1)) =
      snd (CatSetTime.model x (CatSetTimeCalls.run h2 s2)) /\
      snd (CatSetTime.objective x (CatSetTimeCalls.run h1 s1)) =
      snd (CatSetTime.objective x (CatSetTimeCalls.run h2 s2))).
Proof.
  split.
  - intros s1 s2 H1 H2.
    assert (s1 = s2) as <- by congruence.
    destruct (Time_run_frame h1 s1) as (Ht1 & Hs1 & _).
    destruct (Time_run_frame h2 s1) as (Ht2 & Hs2 & _).
    split.
    + apply Time_model_depends. congruence.
    + apply Time_objective_depends; congruence.
  - intros s1 s2 H1 H2.
    assert (s1 = s2) as <- by congruence.
    now rewrite !CatSetTime_run_state.
Qed.

Lemma model_and_objective_deterministic_witness :
  (snd (Time.model [1; 0; 1; 0]
          (TimeCalls.run [CallModel [2; 0; 1; 0]; CallObjective [3]] Examples.time)) =
   snd (Time.model [1; 0; 1; 0] (TimeCalls.run [] Examples.time)) /\
   snd (Time.objective [1; 0; 1; 0]
          (TimeCalls.run [CallModel [2; 0; 1; 0]; CallObjective [3]] Examples.time)) =
   snd (Time.objective [1; 0; 1; 0] (TimeCalls.run [] Examples.time))) /\
  (snd (CatSetTime.model [0; 1; 0; 1; 2]
          (CatSetTimeCalls.run [CallObjective [0; 1; 0; 1; 2]] Examples.cat)) =
   snd (CatSetTime.model [0; 1; 0; 1; 2] (CatSetTimeCalls.run [] Examples.cat)) /\
   snd (CatSetTime.objective [0; 1; 0; 1; 2]
          (CatSetTimeCalls.run [CallObjective [0; 1; 0; 1; 2]] Examples.cat)) =
   snd (CatSetTime.objective [0; 1; 0; 1; 2] (CatSetTimeCalls.run [] Examples.cat))).
Proof.
  split.
  - exact (proj1 (model_and_objective_deterministic
                    Examples.Model_init Examples.data [1; 0; 1; 0]%R
                    [CallModel [2; 0; 1; 0]%R; CallObjective [3%R]] [])
                 Examples.time Examples.time eq_refl eq_refl).
  - exact (proj2 (model_and_objective_deterministic
                    Examples.Model_init Examples.data [0; 1; 0; 1; 2]%R
                    [CallObjective [0; 1; 0; 1; 2]%R] [])
                 Examples.cat Examples.cat eq_refl eq_refl).
Defined.

(** C8: a call of [model] or [objective], on either model and with any
    parameter vector, leaves the time window [t], the observed [spikes],
    [param_names] and the [conditions] as they were.  A [Time] instance is
    either untouched or differs in [function] alone; a [CatSetTime] instance
    is untouched. *)
Theorem calls_leave_held_data_unchanged (x : list R) :
  (forall self : Time.instance,
      (Time.t (fst (Time.model x self)) = Time.t self /\
       Time.spikes (fst (Time.model x self)) = Time.spikes self /\
       Time.param_names (fst (Time.model x self)) = Time.param_names self) /\
      (Time.t (fst (Time.objective x self)) = Time.t self /\
       Time.spikes (fst (Time.objective x self)) = Time.spikes self /\
       Time.param_names (fst (Time.objective x self)) = Time.param_names self) /\
      (fst (Time.model x self) = self \/
       exists f, fst (Time.model x self) = Time.set_function self f) /\
      (fst (Time.objective x self) = self \/
       exists f, fst (Time.objective x self) = Time.set_function self f)) /\
  (forall self : CatSetTime.instance,
      fst (CatSetTime.model x self) = self /\
      fst (CatSetTime.objective x self) = self).
Proof.
  split.
  - intros self.
    assert (Hw : fst (Time.model x self) = self \/
                 exists f, fst (Time.model x self) = Time.set_function self f).
    { destruct (Time_model_writes x self) as [H|[f H]]; rewrite H;
        [now left | right; now exists f]. }
    rewrite Time_objective_state.
    repeat split; try apply Time_model_frame; exact Hw.
  - intros self. split;
      [apply CatSetTime_model_state | apply CatSetTime_objective_state].
Qed.

(** C10: a call of [Time.model] with four parameters returns the
    prediction [a_1 * exp(-(t-ut)^2 / (2*st^2)) + a_0], of the shape of the
    time window, and leaves it in the attribute [function]; [Time.objective]
    with the same parameters leaves the same prediction there.  For every
    vector, when [Time.model] returns, [function] holds the value returned
    (when it raises, the instance is as before), and [Time.objective] leaves
    the instance exactly as the call of [model] inside it does. *)
Theorem time_function_caches_prediction
        (x : list R) (self : Time.instance) (a_1 ut st a_0 : R) :
  (exists p,
      Time.model [a_1; ut; st; a_0] self = (Time.set_function self p, Ok p) /\
      Time.function (fst (Time.model [a_1; ut; st; a_0] self)) = Some p /\
      Time.function (fst (Time.objective [a_1; ut; st; a_0] self)) = Some p /\
      shape p = shape (Time.t self) /\
      forall ix, in_bounds (shape p) ix ->
                 item p ix =
                 a_1 * exp (- (item (Time.t self) ix - ut) ^ 2 / (2 * st ^ 2)) + a_0) /\
  match Time.model x self with
  | (self', Ok p) => Time.function self' = Some p
  | (self', Err _) => self' = self
  end /\
  fst (Time.objective x self) = fst (Time.model x self).
Proof.
  split; [|split; [|apply Time_objective_state]].
  - destruct (Time_model_spec self a_1 ut st a_0) as (p & Hm & Hs & Hi).
    exists p. rewrite Time_objective_state, Hm.
    repeat split; try reflexivity; [exact Hs|].
    intros ix Hix. rewrite <- (bitem_id p ix Hix), Hi.
    now rewrite bitem_id by (rewrite <- Hs; exact Hix).
  - unfold Time.model.
    now destruct (env <- Time.unpack x ;; Time.model_expr (Time.t self) env).
Qed.

End State.

(** * Further properties of the two classes *)

(** ** Rejected and ignored parameters *)

Section ParameterErrors.

Open Scope R_scope.

(** [Time.model] and [Time.objective] raise [ValueError] on every vector
    that does not have exactly four entries, and leave the instance as it
    was. *)
Theorem time_rejects_wrong_arity (self : Time.instance) (x : list R) :
  length x <> 4%nat ->
  Time.model x self = (self, Err ValueError) /\
  Time.objective x self = (self, Err ValueError).
Proof.
  intros Hlen. pose proof (Time_model_arity self x Hlen) as Hm.
  split; [exact Hm|].
  unfold Time.objective, mbind. now rewrite Hm.
Qed.

Lemma time_rejects_wrong_arity_witness :
  Time.model [1; 2; 3] Examples.time = (Examples.time, Err ValueError) /\
  Time.objective [1; 2; 3] Examples.time = (Examples.time, Err ValueError).
Proof.
  apply (time_rejects_wrong_arity Examples.time [1; 2; 3]). simpl. lia.
Defined.

(** [CatSetTime.model] and [CatSetTime.objective] raise [IndexError] on
    every vector of fewer than five entries, whatever the conditions held
    are: the vector is read before them. *)
Theorem catset_rejects_short_vector (self : CatSetTime.instance) (x : list R) :
  (length x < 5)%nat ->
  CatSetTime.model x self = (self, Err IndexError) /\
  CatSetTime.objective x self = (self, Err IndexError).
Proof.
  intros Hlen. pose proof (CatSetTime_model_short self x Hlen) as Hm.
  split; [exact Hm|].
  unfold CatSetTime.objective, mbind. now rewrite Hm.
Qed.

Lemma catset_rejects_short_vector_witness :
  CatSetTime.model [0; 1; 0; 1] Examples.cat = (Examples.cat, Err IndexError) /\
  CatSetTime.objective [0; 1; 0; 1] Examples.cat = (Examples.cat, Err IndexError).
Proof.
  apply (catset_rejects_short_vector Examples.cat [0; 1; 0; 1]). simpl. lia.
Defined.

(** On every [CatSetTime] instance, entries of the parameter vector after
    the fifth change neither what [model] nor what [objective] returns. *)
Theorem catset_ignores_extra_parameters
        (self : CatSetTime.instance) (x rest : list R) :
  length x = 5%nat ->
  CatSetTime.model (x ++ rest) self = CatSetTime.model x self /\
  CatSetTime.objective (x ++ rest) self = CatSetTime.objective x self.
Proof.
  intros Hlen.
  destruct x as [|x0 [|x1 [|x2 [|x3 [|x4 [|x5 x]]]]]]; try discriminate Hlen.
  split; [reflexivity|].
  unfold CatSetTime.objective, mbind. cbn [app].
  now rewrite (CatSetTime_model_ignores_tail self x0 x1 x2 x3 x4 rest).
Qed.

Lemma catset_ignores_extra_parameters_witness :
  CatSetTime.model ([0; 1; 0; 1; 2] ++ [7; 8]) Examples.cat =
  CatSetTime.model [0; 1; 0; 1; 2] Examples.cat /\
  CatSetTime.objective ([0; 1; 0; 1; 2] ++ [7; 8]) Examples.cat =
  CatSetTime.objective [0; 1; 0; 1; 2] Examples.cat.
Proof.
  apply (catset_ignores_extra_parameters Examples.cat [0; 1; 0; 1; 2] [7; 8]).
  reflexivity.
Defined.

(** When the conditions held are a dict without the key 1 or without the
    key 2, [CatSetTime.model] and [CatSetTime.objective] raise [KeyError] on
    every vector of at least five entries. *)
Theorem catset_missing_condition
        (self : CatSetTime.instance) (d : list (Z * ndarray)) (x : list R) :
  CatSetTime.conditions self = PyDict d ->
  zdict_get d 1%Z = None \/ zdict_get d 2%Z = None ->
  (5 <= length x)%nat ->
  CatSetTime.model x self = (self, Err KeyError) /\
  CatSetTime.objective x self = (self, Err KeyError).
Proof.
  intros Hd Hmiss Hlen.
  assert (Hm : CatSetTime.model x self = (self, Err KeyError)).
  { destruct x as [|x0 [|x1 [|x2 [|x3 [|x4 x]]]]]; simpl in Hlen; try lia.
    unfold CatSetTime.model. rewrite CatSetTime_unpack_ok; cbn [rbind].
    rewrite Hd. unfold py_getitem. change (Z.of_nat 1) with 1%Z.
    change (Z.of_nat 2) with 2%Z.
    destruct (zdict_get d 1%Z) as [c1|]; cbn [rbind]; [|reflexivity].
    destruct Hmiss as [Hmiss|Hmiss]; [discriminate|]. now rewrite Hmiss. }
  split; [exact Hm|].
  unfold CatSetTime.objective, mbind. now rewrite Hm.
Qed.

Lemma catset_missing_condition_witness :
  let self := CatSetTime.mk (np_tile Examples.window [2%nat; 1%nat])
                            Examples.raster Examples.window
                            (PyDict [(1%Z, Examples.cond1)])
                            ["ut"; "st"; "a_0"; "a_1"; "a_2"] in
  CatSetTime.model [0; 1; 0; 1; 2] self = (self, Err KeyError) /\
  CatSetTime.objective [0; 1; 0; 1; 2] self = (self, Err KeyError).
Proof.
  intros self.
  apply (catset_missing_condition self [(1%Z, Examples.cond1)] [0; 1; 0; 1; 2]).
  - reflexivity.
  - right. reflexivity.
  - simpl. lia.
Defined.

End ParameterErrors.

(** ** The constructor of CatSetTime *)

Section Construction.

Open Scope R_scope.

Lemma as_reps_of_nat (n : nat) : CatSetTime.as_reps (PyInt (Z.of_nat n)) = Ok n.
Proof.
  unfold CatSetTime.as_reps.
  destruct (Z.ltb_spec (Z.of_nat n) 0) as [Hneg|_]; [lia|].
  now rewrite Nat2Z.id.
Qed.

(** Tiling a window of [T] bins over [n] trials gives [n] rows of [T]
    columns, each row being the window. *)
Lemma np_tile_rows (a : ndarray) (T n : nat) :
  shape a = [T] ->
  shape (np_tile a [n; 1%nat]) = [n; T] /\
  forall i j, (j < T)%nat -> item (np_tile a [n; 1%nat]) [i; j] = item a [j].
Proof.
  intros Ha. unfold np_tile; cbn [shape item]. rewrite Ha. split.
  - cbn [rev app tile_shape_rev]. now rewrite Nat.mul_1_l.
  - intros i j Hj. cbn [rev app tile_index_rev]. now rewrite Nat.mod_small.
Qed.







End Construction.

(** ** The shape of the Time prediction *)

Section TimePrediction.

Open Scope R_scope.

(** A call of [objective] with four parameters: the instance is left as
    [model] leaves it and the cost is that of the cached prediction. *)
Lemma Time_objective_spec (self : Time.instance) (a_1 ut st a_0 : R) :
  exists p,
    Time.model [a_1; ut; st; a_0] self = (Time.set_function self p, Ok p) /\
    Time.objective [a_1; ut; st; a_0] self =
      (Time.set_function self p, bernoulli_cost (Time.spikes self) p) /\
    shape p = shape (Time.t self) /\
    forall ix, bitem p ix =
               a_1 * exp (- (bitem (Time.t self) ix - ut) ^ 2 / (2 * st ^ 2)) + a_0.
Proof.
  destruct (Time_model_spec self a_1 ut st a_0) as (p & Hm & Hs & Hi).
  exists p. repeat split; try assumption.
  unfold Time.objective, mbind. rewrite Hm. now rewrite log_loss_spec.
Qed.

(** For a non-negative amplitude and a non-zero width (the width divides
    the exponent), every prediction of [Time.model] lies between the offset
    [a_0] and [a_0 + a_1], and it is [a_0 + a_1] at every sample whose time
    is the centre [ut]. *)
Theorem time_prediction_range
        (self : Time.instance) (a_1 ut st a_0 : R) :
  st <> 0 -> 0 <= a_1 ->
  exists p,
    snd (Time.model [a_1; ut; st; a_0] self) = Ok p /\
    shape p = shape (Time.t self) /\
    forall ix, in_bounds (shape p) ix ->
               a_0 <= item p ix <= a_0 + a_1 /\
               (item (Time.t self) ix = ut -> item p ix = a_0 + a_1).
Proof.
  intros _ Ha.
  destruct (Time_model_spec self a_1 ut st a_0) as (p & Hm & Hs & Hi).
  exists p. rewrite Hm. split; [reflexivity|]. split; [exact Hs|].
  intros ix Hix. rewrite <- (bitem_id p ix Hix), Hi.
  rewrite bitem_id by (rewrite <- Hs; exact Hix).
  pose proof (gauss_factor_range (item (Time.t self) ix) ut st) as [Hlo Hhi].
  split; [nra|].
  intros ->.
  replace (- (ut - ut) ^ 2 / (2 * st ^ 2)) with 0
    by (unfold Rdiv; replace (ut - ut) with 0 by ring; simpl; ring).
  rewrite exp_0. ring.
Qed.

Lemma time_prediction_range_witness :
  exists p,
    snd (Time.model [1 / 2; 0; 1; 1 / 4] Examples.time) = Ok p /\
    shape p = shape (Time.t Examples.time) /\
    forall ix, in_bounds (shape p) ix ->
               1 / 4 <= item p ix <= 1 / 4 + 1 / 2 /\
               (item (Time.t Examples.time) ix = 0 -> item p ix = 1 / 4 + 1 / 2).
Proof.
  apply (time_prediction_range Examples.time (1 / 2) 0 1 (1 / 4)); lra.
Defined.

(** The width enters [Time.model] through its square only: [st] and [- st]
    give the same prediction at every sample, and the same cost. *)
Theorem time_width_sign_irrelevant
        (self : Time.instance) (a_1 ut st a_0 : R) :
  exists p q,
    snd (Time.model [a_1; ut; st; a_0] self) = Ok p /\
    snd (Time.model [a_1; ut; - st; a_0] self) = Ok q /\
    shape p = shape q /\
    (forall ix, in_bounds (shape p) ix -> item p ix = item q ix) /\
    snd (Time.objective [a_1; ut; st; a_0] self) =
    snd (Time.objective [a_1; ut; - st; a_0] self).
Proof.
  destruct (Time_objective_spec self a_1 ut st a_0) as (p & Hmp & Hop & Hsp & Hip).
  destruct (Time_objective_spec self a_1 ut (- st) a_0) as (q & Hmq & Hoq & Hsq & Hiq).
  assert (Hpq : forall ix, bitem p ix = bitem q ix).
  { intros ix. rewrite Hip, Hiq.
    replace ((- st) ^ 2) with (st ^ 2) by (simpl; ring). reflexivity. }
  exists p, q. rewrite Hmp, Hmq, Hop, Hoq; cbn [snd].
  split; [reflexivity|]. split; [reflexivity|]. split; [congruence|]. split.
  - intros ix Hix. rewrite <- (bitem_id p ix Hix).
    rewrite <- (bitem_id q ix) by (rewrite Hsq, <- Hsp; exact Hix). apply Hpq.
  - unfold bernoulli_cost. rewrite Hsp, Hsq.
    destruct (broadcast_shapes (shape (Time.spikes self)) (shape (Time.t self)));
      [|reflexivity].
    f_equal. unfold bernoulli_nll. apply sum_over_ext. intros ix _.
    now rewrite Hpq.
Qed.

(** The prediction of [Time.model] is symmetric about the centre: two
    samples whose times lie at the same distance on either side of [ut]
    have the same prediction. *)
Theorem time_symmetric_about_centre
        (self : Time.instance) (a_1 ut st a_0 : R) (ix jx : list nat) :
  in_bounds (shape (Time.t self)) ix ->
  in_bounds (shape (Time.t self)) jx ->
  item (Time.t self) ix - ut = ut - item (Time.t self) jx ->
  exists p,
    snd (Time.model [a_1; ut; st; a_0] self) = Ok p /\
    item p ix = item p jx.
Proof.
  intros Hix Hjx Hsym.
  destruct (Time_model_spec self a_1 ut st a_0) as (p & Hm & Hs & Hi).
  exists p. rewrite Hm. split; [reflexivity|].
  rewrite <- (bitem_id p ix), <- (bitem_id p jx) by (rewrite Hs; assumption).
  rewrite !Hi, !bitem_id by assumption.
  replace ((item (Time.t self) jx - ut) ^ 2)
    with ((item (Time.t self) ix - ut) ^ 2); [reflexivity|].
  replace (item (Time.t self) jx - ut) with (- (item (Time.t self) ix - ut)) by lra.
  simpl; ring.
Qed.

Lemma time_symmetric_about_centre_witness :
  exists p,
    snd (Time.model [1 / 2; 0; 1; 1 / 4] Examples.time) = Ok p /\
    item p [0%nat] = item p [2%nat].
Proof.
  apply (time_symmetric_about_centre Examples.time (1 / 2) 0 1 (1 / 4)
           [0%nat] [2%nat]).
  - repeat constructor.
  - repeat constructor.
  - simpl. lra.
Defined.

End TimePrediction.

(** ** The Time cost *)

Section TimeCost.

Open Scope R_scope.

(** With amplitude 0 the [Time] model is the constant-rate model: every
    prediction is the offset [a_0], whatever the centre and the non-zero
    width (the width divides the exponent), and the cost is that of the
    constant rate [a_0] on every observation. *)
Theorem time_constant_when_amplitude_zero
        (self : Time.instance) (ut st a_0 : R) (sh : list nat) :
  st <> 0 ->
  broadcast_shapes (shape (Time.spikes self)) (shape (Time.t self)) = Some sh ->
  exists p,
    snd (Time.model [0; ut; st; a_0] self) = Ok p /\
    (forall ix, in_bounds (shape p) ix -> item p ix = a_0) /\
    snd (Time.objective [0; ut; st; a_0] self) =
    Ok (sum_over sh
          (fun ix => - bitem (Time.spikes self) ix * ln a_0
                     - (1 - bitem (Time.spikes self) ix) * ln (1 - a_0))).
Proof.
  intros _ Hsh.
  destruct (Time_objective_spec self 0 ut st a_0) as (p & Hm & Ho & Hs & Hi).
  assert (Hflat : forall ix, bitem p ix = a_0) by (intros ix; rewrite Hi; ring).
  exists p. rewrite Hm, Ho; cbn [snd].
  split; [reflexivity|]. split.
  - intros ix Hix. now rewrite <- (bitem_id p ix Hix).
  - unfold bernoulli_cost. rewrite Hs, Hsh. f_equal.
    unfold bernoulli_nll. apply sum_over_ext. intros ix _. now rewrite Hflat.
Qed.

Lemma time_constant_when_amplitude_zero_witness :
  exists p,
    snd (Time.model [0; 5; 2; 1 / 4] Examples.time) = Ok p /\
    (forall ix, in_bounds (shape p) ix -> item p ix = 1 / 4) /\
    snd (Time.objective [0; 5; 2; 1 / 4] Examples.time) =
    Ok (sum_over [2; 3]%nat
          (fun ix => - bitem (Time.spikes Examples.time) ix * ln (1 / 4)
                     - (1 - bitem (Time.spikes Examples.time) ix) * ln (1 - 1 / 4))).
Proof.
  apply (time_constant_when_amplitude_zero Examples.time 5 2 (1 / 4) [2; 3]%nat);
    [lra | reflexivity].
Defined.

(** When the spikes held cannot be broadcast against the time window,
    [Time.objective] raises [ValueError] on every vector of four
    parameters, after the prediction of this very call has replaced the
    cached one. *)
Theorem time_objective_shape_mismatch
        (self : Time.instance) (a_1 ut st a_0 : R) :
  broadcast_shapes (shape (Time.spikes self)) (shape (Time.t self)) = None ->
  exists p,
    Time.model [a_1; ut; st; a_0] self = (Time.set_function self p, Ok p) /\
    Time.objective [a_1; ut; st; a_0] self =
      (Time.set_function self p, Err ValueError).
Proof.
  intros Hsh.
  destruct (Time_objective_spec self a_1 ut st a_0) as (p & Hm & Ho & Hs & _).
  exists p. split; [exact Hm|]. rewrite Ho.
  unfold bernoulli_cost. now rewrite Hs, Hsh.
Qed.

Lemma time_objective_shape_mismatch_witness :
  let self := Time.mk (array1 [0; 1; 2]) (array1 [0; 1])
                      ["a_1"; "ut"; "st"; "a_0"] None in
  exists p,
    Time.model [1 / 2; 0; 1; 1 / 4] self = (Time.set_function self p, Ok p) /\
    Time.objective [1 / 2; 0; 1; 1 / 4] self =
      (Time.set_function self p, Err ValueError).
Proof.
  intros self.
  apply (time_objective_shape_mismatch self (1 / 2) 0 1 (1 / 4)). reflexivity.
Defined.

(** Two calls of [Time.model] in a row: when the second returns, the
    instance caches its prediction, the same as if the first call had not
    been made; when the second raises, the instance stays as the first call
    left it. *)
Theorem time_second_call_replaces_cache (x y : list R) (self : Time.instance) :
  snd (Time.model y (fst (Time.model x self))) = snd (Time.model y self) /\
  match snd (Time.model y self) with
  | Ok q =>
      fst (Time.model y (fst (Time.model x self))) = fst (Time.model y self) /\
      Time.function (fst (Time.model y (fst (Time.model x self)))) = Some q
  | Err _ =>
      fst (Time.model y (fst (Time.model x self))) = fst (Time.model x self)
  end.
Proof.
  destruct (Time_model_writes x self) as [Hx|[f Hx]]; rewrite Hx; cbn [fst];
    unfold Time.model; cbn [Time.t Time.set_function];
    destruct (env <- Time.unpack y ;; Time.model_expr (Time.t self) env);
    cbn [fst snd]; repeat split; reflexivity.
Qed.

End TimeCost.

(** ** The CatSetTime prediction, trial by trial *)

Section CatSetTimePrediction.

Open Scope R_scope.

Lemma bdim_1_l (d : nat) : bdim 1 d = Some d.
Proof.
  unfold bdim. destruct (Nat.eqb_spec 1 d) as [<-|_]; reflexivity.
Qed.

Lemma bdim_1_r (d : nat) : bdim d 1 = Some d.
Proof. rewrite bdim_comm. apply bdim_1_l. Qed.

(** A call with at least five parameters, both indicators present and
    shapes that can be broadcast together. *)
Lemma CatSetTime_model_ok
      (self : CatSetTime.instance) (ut st a_0 a_1 a_2 : R) (rest : list R)
      (c1 c2 : ndarray) (sh : list nat) :
  py_getitem (CatSetTime.conditions self) 1 = Ok c1 ->
  py_getitem (CatSetTime.conditions self) 2 = Ok c2 ->
  cat_shape (shape c1) (shape (CatSetTime.t self)) (shape c2) = Some sh ->
  exists p,
    CatSetTime.model (ut :: st :: a_0 :: a_1 :: a_2 :: rest) self = (self, Ok p) /\
    shape p = sh /\
    forall ix, bitem p ix =
               cat_prediction a_1 a_2 a_0 ut st (bitem c1 ix) (bitem c2 ix)
                              (bitem (CatSetTime.t self) ix).
Proof.
  intros Hc1 Hc2 Hsh.
  destruct (CatSetTime_model_expr_ok (CatSetTime.t self) c1 c2 ut st a_0 a_1 a_2 sh Hsh)
    as (p & Hp & Hsp & Hpi).
  exists p. split; [|now split].
  unfold CatSetTime.model. rewrite CatSetTime_unpack_ok; cbn [rbind].
  rewrite Hc1, Hc2; cbn [rbind]. now rewrite Hp.
Qed.

(** Indicator columns of [n] trials against [n] rows of [T] time bins. *)
Lemma cat_shape_columns (n T : nat) :
  cat_shape [n; 1%nat] [n; T] [n; 1%nat] = Some [n; T].
Proof.
  assert (H : broadcast_shapes [n; 1%nat] [n; T] = Some [n; T]).
  { unfold broadcast_shapes; cbn [rev app bshape_rev].
    now rewrite bdim_1_l, bdim_refl. }
  unfold cat_shape. rewrite H. apply broadcast_shapes_refl.
Qed.

Lemma bindex_column (n i j : nat) :
  (i < n)%nat -> bindex [n; 1%nat] [i; j] = [i; 0%nat].
Proof.
  intros Hi. unfold bindex; cbn [rev app bindex_rev Nat.eqb].
  destruct (Nat.eqb_spec n 1) as [->|_]; [|reflexivity].
  now replace i with 0%nat by lia.
Qed.

(** With one indicator column per condition ([n] trials, shape [(n, 1)])
    and a time array of [n] rows and [T] columns, [CatSetTime.model] returns
    one row per trial and one column per time bin; the entry of trial [i] at
    bin [j] is [(a_1*c1[i] + a_2*c2[i]) * exp(-(t[i,j]-ut)^2/(2*st^2)) + a_0]. *)
Theorem catset_prediction_per_trial
        (self : CatSetTime.instance) (ut st a_0 a_1 a_2 : R) (rest : list R)
        (c1 c2 : ndarray) (n T : nat) :
  py_getitem (CatSetTime.conditions self) 1 = Ok c1 ->
  py_getitem (CatSetTime.conditions self) 2 = Ok c2 ->
  shape c1 = [n; 1%nat] -> shape c2 = [n; 1%nat] ->
  shape (CatSetTime.t self) = [n; T] ->
  exists p,
    snd (CatSetTime.model (ut :: st :: a_0 :: a_1 :: a_2 :: rest) self) = Ok p /\
    shape p = [n; T] /\
    forall i j, (i < n)%nat -> (j < T)%nat ->
      item p [i; j] =
      cat_prediction a_1 a_2 a_0 ut st
                     (item c1 [i; 0%nat]) (item c2 [i; 0%nat])
                     (item (CatSetTime.t self) [i; j]).
Proof.
  intros Hc1 Hc2 Hs1 Hs2 Ht.
  destruct (CatSetTime_model_ok self ut st a_0 a_1 a_2 rest c1 c2 [n; T] Hc1 Hc2)
    as (p & Hm & Hsp & Hpi).
  { rewrite Hs1, Hs2, Ht. apply cat_shape_columns. }
  exists p. rewrite Hm. split; [reflexivity|]. split; [exact Hsp|].
  intros i j Hi Hj.
  assert (Hin : in_bounds [n; T] [i; j]) by (repeat constructor; assumption).
  rewrite <- (bitem_id p) by (rewrite Hsp; exact Hin).
  rewrite Hpi. unfold bitem at 1 2. rewrite Hs1, Hs2, !(bindex_column n i j Hi).
  now rewrite (bitem_id (CatSetTime.t self)) by (rewrite Ht; exact Hin).
Qed.

Lemma catset_prediction_per_trial_witness :
  exists p,
    snd (CatSetTime.model [0; 1; 0; 1; 2] Examples.cat) = Ok p /\
    shape p = [2; 3]%nat /\
    forall i j, (i < 2)%nat -> (j < 3)%nat ->
      item p [i; j] =
      cat_prediction 1 2 0 0 1
                     (item Examples.cond1 [i; 0%nat]) (item Examples.cond2 [i; 0%nat])
                     (item (CatSetTime.t Examples.cat) [i; j]).
Proof.
  apply (catset_prediction_per_trial Examples.cat 0 1 0 1 2 []
           Examples.cond1 Examples.cond2 2 3); reflexivity.
Defined.

(** For a non-zero width (the width divides the exponent): wherever
    exactly the first indicator is set, the prediction of
    [CatSetTime.model] is the gaussian of amplitude [a_1] over the offset;
    wherever exactly the second is set, the gaussian of amplitude [a_2];
    wherever none is set, the offset alone. *)
Theorem catset_prediction_by_condition
        (self : CatSetTime.instance) (ut st a_0 a_1 a_2 : R) (rest : list R)
        (c1 c2 : ndarray) (sh : list nat) :
  st <> 0 ->
  py_getitem (CatSetTime.conditions self) 1 = Ok c1 ->
  py_getitem (CatSetTime.conditions self) 2 = Ok c2 ->
  cat_shape (shape c1) (shape (CatSetTime.t self)) (shape c2) = Some sh ->
  exists p,
    snd (CatSetTime.model (ut :: st :: a_0 :: a_1 :: a_2 :: rest) self) = Ok p /\
    shape p = sh /\
    forall ix, in_bounds sh ix ->
      let g := exp (- (bitem (CatSetTime.t self) ix - ut) ^ 2 / (2 * st ^ 2)) in
      (bitem c1 ix = 1 -> bitem c2 ix = 0 -> item p ix = a_1 * g + a_0) /\
      (bitem c1 ix = 0 -> bitem c2 ix = 1 -> item p ix = a_2 * g + a_0) /\
      (bitem c1 ix = 0 -> bitem c2 ix = 0 -> item p ix = a_0).
Proof.
  intros _ Hc1 Hc2 Hsh.
  destruct (CatSetTime_model_ok self ut st a_0 a_1 a_2 rest c1 c2 sh Hc1 Hc2 Hsh)
    as (p & Hm & Hsp & Hpi).
  exists p. rewrite Hm. split; [reflexivity|]. split; [exact Hsp|].
  intros ix Hix g.
  rewrite <- (bitem_id p) by (rewrite Hsp; exact Hix).
  rewrite Hpi. unfold cat_prediction. fold g.
  repeat split; intros -> ->; ring.
Qed.

Lemma catset_prediction_by_condition_witness :
  exists p,
    snd (CatSetTime.model [0; 1; 0; 1; 2] Examples.cat) = Ok p /\
    shape p = [2; 3]%nat /\
    forall ix, in_bounds [2; 3]%nat ix ->
      let g := exp (- (bitem (CatSetTime.t Examples.cat) ix - 0) ^ 2 / (2 * 1 ^ 2)) in
      (bitem Examples.cond1 ix = 1 -> bitem Examples.cond2 ix = 0 ->
       item p ix = 1 * g + 0) /\
      (bitem Examples.cond1 ix = 0 -> bitem Examples.cond2 ix = 1 ->
       item p ix = 2 * g + 0) /\
      (bitem Examples.cond1 ix = 0 -> bitem Examples.cond2 ix = 0 ->
       item p ix = 0).
Proof.
  apply (catset_prediction_by_condition Examples.cat 0 1 0 1 2 []
           Examples.cond1 Examples.cond2 [2; 3]%nat); try reflexivity.
  lra.
Defined.

End CatSetTimePrediction.

(** ** CatSetTime against Time, and the layout of the indicators *)

Section CatSetTimeLayout.

Open Scope R_scope.

(** With equal amplitudes, and every sample in exactly one of the two
    conditions, [CatSetTime.model] predicts what [Time.model] predicts over
    the same time array with that amplitude. *)
Theorem catset_equal_amplitudes_is_time
        (self : CatSetTime.instance) (tself : Time.instance)
        (ut st a_0 a : R) (rest : list R) (c1 c2 : ndarray) (sh : list nat) :
  py_getitem (CatSetTime.conditions self) 1 = Ok c1 ->
  py_getitem (CatSetTime.conditions self) 2 = Ok c2 ->
  cat_shape (shape c1) (shape (CatSetTime.t self)) (shape c2) = Some sh ->
  Time.t tself = CatSetTime.t self ->
  (forall ix, in_bounds sh ix -> bitem c1 ix + bitem c2 ix = 1) ->
  exists p q,
    snd (CatSetTime.model (ut :: st :: a_0 :: a :: a :: rest) self) = Ok p /\
    snd (Time.model [a; ut; st; a_0] tself) = Ok q /\
    shape p = sh /\
    forall ix, in_bounds sh ix -> item p ix = bitem q ix.
Proof.
  intros Hc1 Hc2 Hsh Ht Hone.
  destruct (CatSetTime_model_ok self ut st a_0 a a rest c1 c2 sh Hc1 Hc2 Hsh)
    as (p & Hm & Hsp & Hpi).
  destruct (Time_model_spec tself a ut st a_0) as (q & Hq & Hsq & Hqi).
  exists p, q. rewrite Hm, Hq. repeat split; try reflexivity; [exact Hsp|].
  intros ix Hix. rewrite <- (bitem_id p) by (rewrite Hsp; exact Hix).
  rewrite Hpi, Hqi, Ht. unfold cat_prediction.
  replace (a * bitem c1 ix + a * bitem c2 ix) with a; [reflexivity|].
  rewrite <- Rmult_plus_distr_l, (Hone ix Hix). ring.
Qed.

Lemma catset_equal_amplitudes_is_time_witness :
  exists p q,
    snd (CatSetTime.model [0; 1; 1 / 4; 1 / 2; 1 / 2] Examples.cat) = Ok p /\
    snd (Time.model [1 / 2; 0; 1; 1 / 4]
           (Time.mk (CatSetTime.t Examples.cat) Examples.raster
                    ["a_1"; "ut"; "st"; "a_0"] None)) = Ok q /\
    shape p = [2; 3]%nat /\
    forall ix, in_bounds [2; 3]%nat ix -> item p ix = bitem q ix.
Proof.
  apply (catset_equal_amplitudes_is_time Examples.cat _ 0 1 (1 / 4) (1 / 2) []
           Examples.cond1 Examples.cond2 [2; 3]%nat); try reflexivity.
  intros ix Hix. index2 Hix.
  destruct i as [|[|i]]; [| |simpl in *; lia];
    (destruct j as [|[|[|j]]]; [| | |simpl in *; lia]);
    unfold bitem; simpl; lra.
Defined.

(** Indicators held as flat vectors of [n] entries cannot be combined with
    a time array of [n] rows and [T] columns, unless [n = T] or one of the
    two is 1: [CatSetTime.model] raises [ValueError]. *)
Theorem catset_flat_indicators_rejected
        (self : CatSetTime.instance) (x : list R) (c1 c2 : ndarray) (n T : nat) :
  py_getitem (CatSetTime.conditions self) 1 = Ok c1 ->
  py_getitem (CatSetTime.conditions self) 2 = Ok c2 ->
  shape c1 = [n] ->
  shape (CatSetTime.t self) = [n; T] ->
  n <> T -> n <> 1%nat -> T <> 1%nat ->
  (5 <= length x)%nat ->
  CatSetTime.model x self = (self, Err ValueError) /\
  CatSetTime.objective x self = (self, Err ValueError).
Proof.
  intros Hc1 Hc2 Hs1 Ht HnT Hn1 HT1 Hlen.
  assert (Hm : CatSetTime.model x self = (self, Err ValueError)).
  { destruct x as [|ut [|st [|a_0 [|a_1 [|a_2 rest]]]]]; simpl in Hlen; try lia.
    unfold CatSetTime.model. rewrite CatSetTime_unpack_ok; cbn [rbind].
    rewrite Hc1, Hc2; cbn [rbind].
    rewrite CatSetTime_model_expr_error; [reflexivity|].
    unfold cat_shape. rewrite Hs1, Ht.
    assert (Hnone : broadcast_shapes [n] [n; T] = None).
    { unfold broadcast_shapes; cbn [rev app bshape_rev]. unfold bdim.
      destruct (Nat.eqb_spec n T); [contradiction|].
      destruct (Nat.eqb_spec n 1); [contradiction|].
      destruct (Nat.eqb_spec T 1); [contradiction|reflexivity]. }
    now rewrite Hnone. }
  split; [exact Hm|].
  unfold CatSetTime.objective, mbind. now rewrite Hm.
Qed.

Lemma catset_flat_indicators_rejected_witness :
  let self := CatSetTime.mk (np_tile Examples.window [2%nat; 1%nat])
                            Examples.raster Examples.window
                            (PyDict [(1%Z, array1 [1; 0]); (2%Z, array1 [0; 1])])
                            ["ut"; "st"; "a_0"; "a_1"; "a_2"] in
  CatSetTime.model [0; 1; 0; 1; 2] self = (self, Err ValueError) /\
  CatSetTime.objective [0; 1; 0; 1; 2] self = (self, Err ValueError).
Proof.
  intros self.
  apply (catset_flat_indicators_rejected self [0; 1; 0; 1; 2]
           (array1 [1; 0]) (array1 [0; 1]) 2 3);
    try reflexivity; simpl; lia.
Defined.

Lemma bindex_flat (n i j : nat) :
  (j < n)%nat -> bindex [n] [i; j] = [j].
Proof.
  intros Hj. unfold bindex; cbn [rev app bindex_rev].
  destruct (Nat.eqb_spec n 1) as [->|_]; [|reflexivity].
  now replace j with 0%nat by lia.
Qed.

(** When the number of trials equals the number of time bins, flat
    indicator vectors are accepted, and they are applied along the time
    axis: the entry of trial [i] at bin [j] uses [c1[j]] and [c2[j]], the
    indicators of trial [j]. *)
Theorem catset_flat_indicators_follow_time_bins
        (self : CatSetTime.instance) (ut st a_0 a_1 a_2 : R) (rest : list R)
        (c1 c2 : ndarray) (n : nat) :
  py_getitem (CatSetTime.conditions self) 1 = Ok c1 ->
  py_getitem (CatSetTime.conditions self) 2 = Ok c2 ->
  shape c1 = [n] -> shape c2 = [n] ->
  shape (CatSetTime.t self) = [n; n] ->
  exists p,
    snd (CatSetTime.model (ut :: st :: a_0 :: a_1 :: a_2 :: rest) self) = Ok p /\
    shape p = [n; n] /\
    forall i j, (i < n)%nat -> (j < n)%nat ->
      item p [i; j] =
      cat_prediction a_1 a_2 a_0 ut st (item c1 [j]) (item c2 [j])
                     (item (CatSetTime.t self) [i; j]).
Proof.
  intros Hc1 Hc2 Hs1 Hs2 Ht.
  assert (Hb : broadcast_shapes [n] [n; n] = Some [n; n]).
  { unfold broadcast_shapes; cbn [rev app bshape_rev]. now rewrite bdim_refl. }
  destruct (CatSetTime_model_ok self ut st a_0 a_1 a_2 rest c1 c2 [n; n] Hc1 Hc2)
    as (p & Hm & Hsp & Hpi).
  { unfold cat_shape. rewrite Hs1, Hs2, Ht, Hb. apply broadcast_shapes_refl. }
  exists p. rewrite Hm. split; [reflexivity|]. split; [exact Hsp|].
  intros i j Hi Hj.
  assert (Hin : in_bounds [n; n] [i; j]) by (repeat constructor; assumption).
  rewrite <- (bitem_id p) by (rewrite Hsp; exact Hin).
  rewrite Hpi. unfold bitem at 1 2. rewrite Hs1, Hs2, !(bindex_flat n i j Hj).
  now rewrite (bitem_id (CatSetTime.t self)) by (rewrite Ht; exact Hin).
Qed.

Lemma catset_flat_indicators_follow_time_bins_witness :
  let self := CatSetTime.mk (np_tile (array1 [0; 1]) [2%nat; 1%nat])
                            (array2 2 [[0; 1]; [1; 0]]) (array1 [0; 1])
                            (PyDict [(1%Z, array1 [1; 0]); (2%Z, array1 [0; 1])])
                            ["ut"; "st"; "a_0"; "a_1"; "a_2"] in
  exists p,
    snd (CatSetTime.model [0; 1; 0; 1; 2] self) = Ok p /\
    shape p = [2; 2]%nat /\
    forall i j, (i < 2)%nat -> (j < 2)%nat ->
      item p [i; j] =
      cat_prediction 1 2 0 0 1 (item (array1 [1; 0]) [j]) (item (array1 [0; 1]) [j])
                     (item (CatSetTime.t self) [i; j]).
Proof.
  intros self.
  apply (catset_flat_indicators_follow_time_bins self 0 1 0 1 2 []
           (array1 [1; 0]) (array1 [0; 1]) 2); reflexivity.
Defined.

(** From the constructor to the prediction: for an instance built from a
    window of [T] bins, [n] trials and one indicator column per condition,
    [CatSetTime.model] returns [n] rows of [T] columns, and the entry of
    trial [i] at bin [j] is the gaussian at the time [plot_t[j]] with the
    amplitude [a_1*c1[i] + a_2*c2[i]], over the offset [a_0]. *)
Theorem catset_constructed_prediction
        (Model_init : pydict -> result Model.instance) (data : pydict)
        (base : Model.instance) (T n : nat) (d : list (Z * ndarray))
        (c1 c2 : ndarray) (ut st a_0 a_1 a_2 : R) (rest : list R) :
  Model_init data = Ok base ->
  shape (Model.t base) = [T] ->
  data_getitem data "num_trials" = Ok (PyInt (Z.of_nat n)) ->
  data_getitem data "conditions" = Ok (PyDict d) ->
  zdict_get d 1%Z = Some c1 -> zdict_get d 2%Z = Some c2 ->
  shape c1 = [n; 1%nat] -> shape c2 = [n; 1%nat] ->
  exists self p,
    CatSetTime.init Model_init data = Ok self /\
    snd (CatSetTime.model (ut :: st :: a_0 :: a_1 :: a_2 :: rest) self) = Ok p /\
    shape p = [n; T] /\
    forall i j, (i < n)%nat -> (j < T)%nat ->
      item p [i; j] =
      cat_prediction a_1 a_2 a_0 ut st
                     (item c1 [i; 0%nat]) (item c2 [i; 0%nat])
                     (item (CatSetTime.plot_t self) [j]).
Proof.
  intros Hbase HT Hn Hc Hd1 Hd2 Hs1 Hs2.
  destruct (np_tile_rows (Model.t base) T n HT) as [Hts Hti].
  set (self := CatSetTime.mk (np_tile (Model.t base) [n; 1%nat]) (Model.spikes base)
                             (Model.t base) (PyDict d)
                             ["ut"; "st"; "a_0"; "a_1"; "a_2"]).
  assert (Hinit : CatSetTime.init Model_init data = Ok self).
  { unfold CatSetTime.init. rewrite Hbase; cbn [rbind]. rewrite Hn; cbn [rbind].
    rewrite as_reps_of_nat; cbn [rbind]. now rewrite Hc. }
  assert (Hg1 : py_getitem (CatSetTime.conditions self) 1 = Ok c1).
  { cbn. now rewrite Hd1. }
  assert (Hg2 : py_getitem (CatSetTime.conditions self) 2 = Ok c2).
  { cbn. now rewrite Hd2. }
  destruct (CatSetTime_model_ok self ut st a_0 a_1 a_2 rest c1 c2 [n; T] Hg1 Hg2)
    as (p & Hm & Hsp & Hpi).
  { rewrite Hs1, Hs2. cbn [CatSetTime.t self]. rewrite Hts. apply cat_shape_columns. }
  exists self, p. split; [exact Hinit|]. rewrite Hm.
  split; [reflexivity|]. split; [exact Hsp|].
  intros i j Hi Hj.
  assert (Hin : in_bounds [n; T] [i; j]) by (repeat constructor; assumption).
  rewrite <- (bitem_id p) by (rewrite Hsp; exact Hin).
  rewrite Hpi. unfold bitem at 1 2. rewrite Hs1, Hs2, !(bindex_column n i j Hi).
  rewrite (bitem_id (CatSetTime.t self)) by (cbn [CatSetTime.t self]; rewrite Hts; exact Hin).
  cbn [CatSetTime.t CatSetTime.plot_t self]. now rewrite (Hti i j Hj).
Qed.

Lemma catset_constructed_prediction_witness :
  exists self p,
    CatSetTime.init Examples.Model_init Examples.data = Ok self /\
    snd (CatSetTime.model [0; 1; 0; 1; 2] self) = Ok p /\
    shape p = [2; 3]%nat /\
    forall i j, (i < 2)%nat -> (j < 3)%nat ->
      item p [i; j] =
      cat_prediction 1 2 0 0 1
                     (item Examples.cond1 [i; 0%nat]) (item Examples.cond2 [i; 0%nat])
                     (item (CatSetTime.plot_t self) [j]).
Proof.
  apply (catset_constructed_prediction Examples.Model_init Examples.data
           (Model.mk Examples.window Examples.raster) 3 2
           [(1%Z, Examples.cond1); (2%Z, Examples.cond2)]
           Examples.cond1 Examples.cond2 0 1 0 1 2 []); reflexivity.
Defined.

End CatSetTimeLayout.
